(** * A shallow embedding of the request engine of dufs (src/server.rs)

    Integers of the source ([u32], [u64]) are [Z] with their range or
    wrap-around written out; arithmetic is the one of a release build, where
    an overflowing [u64] operation wraps.  Bytes and strings are
    [String.string] (one [ascii] per byte).  Paths are lists of components,
    absolute paths starting at the file system root. *)

From Stdlib Require Import String Ascii List Bool ZArith Lia Sorted Permutation.
Import ListNotations.
Open Scope string_scope.
Open Scope list_scope.

Local Infix "+++" := String.append (at level 60, right associativity).

(* ------------------------------------------------------------------ *)
(** ** Strings and numbers *)

Definition byte_of (c : ascii) : nat := nat_of_ascii c.

Definition chars (s : string) : list ascii := list_ascii_of_string s.

(** The one-character string made of a double quote (byte 34). *)
Definition dq : string := String "034"%char EmptyString.

Definition is_digit (c : ascii) : bool :=
  (48 <=? byte_of c)%nat && (byte_of c <=? 57)%nat.

Definition digit_val (c : ascii) : Z := Z.of_nat (byte_of c - 48).

Fixpoint parse_digits (acc : Z) (s : string) : option Z :=
  match s with
  | EmptyString => Some acc
  | String c r =>
      if is_digit c then parse_digits (acc * 10 + digit_val c)%Z r else None
  end.

(** [<uN as FromStr>::from_str]: an optional [+], at least one decimal
    digit, and a value below [2^bits]; a leading [-] is an invalid digit for
    unsigned types. *)
Definition parse_uint (bits : Z) (s : string) : option Z :=
  let digits := match s with
                | String c r => if Ascii.eqb c "+" then r else s
                | EmptyString => s
                end in
  match digits with
  | EmptyString => None
  | _ =>
      match parse_digits 0 digits with
      | Some v => if (v <? 2 ^ bits)%Z then Some v else None
      | None => None
      end
  end.

Definition u64_max_plus_one : Z := (2 ^ 64)%Z.
Definition wrap64 (x : Z) : Z := (x mod u64_max_plus_one)%Z.

Fixpoint dec_aux (fuel : nat) (n : Z) (acc : string) : string :=
  match fuel with
  | O => acc
  | S f =>
      let acc' := String (ascii_of_nat (48 + Z.to_nat (n mod 10))) acc in
      if (n <? 10)%Z then acc' else dec_aux f (n / 10)%Z acc'
  end.

(** [Display] of an unsigned integer: its decimal digits. *)
Definition z_to_dec (n : Z) : string := dec_aux (S (Z.to_nat (Z.log2 n))) n "".

Fixpoint starts_with (p s : string) : bool :=
  match p, s with
  | EmptyString, _ => true
  | String a p', String b s' => Ascii.eqb a b && starts_with p' s'
  | _, _ => false
  end.

Fixpoint strip_prefix (p s : string) : option string :=
  match p, s with
  | EmptyString, _ => Some s
  | String a p', String b s' => if Ascii.eqb a b then strip_prefix p' s' else None
  | _, _ => None
  end.

Definition rev_str (s : string) : string :=
  string_of_list_ascii (rev (chars s)).

Definition ends_with (p s : string) : bool := starts_with (rev_str p) (rev_str s).

Fixpoint trim_start (c : ascii) (s : string) : string :=
  match s with
  | String a r => if Ascii.eqb a c then trim_start c r else s
  | EmptyString => EmptyString
  end.

Definition trim_end (c : ascii) (s : string) : string :=
  rev_str (trim_start c (rev_str s)).

(** [str::trim_matches(c)]. *)
Definition trim_matches (c : ascii) (s : string) : string := trim_end c (trim_start c s).

(** [str::splitn(2, c)]: the part before the first [c] and, if there is a
    [c], the rest after it. *)
Fixpoint split_once (c : ascii) (s : string) : string * option string :=
  match s with
  | EmptyString => (EmptyString, None)
  | String a r =>
      if Ascii.eqb a c then (EmptyString, Some r)
      else let '(x, y) := split_once c r in (String a x, y)
  end.

(** [str::split(c)]. *)
Fixpoint split_on (c : ascii) (s : string) : list string :=
  match s with
  | EmptyString => [EmptyString]
  | String a r =>
      if Ascii.eqb a c then EmptyString :: split_on c r
      else match split_on c r with
           | x :: xs => String a x :: xs
           | [] => [String a EmptyString]
           end
  end.

Fixpoint join_with (sep : string) (xs : list string) : string :=
  match xs with
  | [] => ""
  | [x] => x
  | x :: r => x +++ sep +++ join_with sep r
  end.

Definition is_ascii (s : string) : bool :=
  forallb (fun c => (byte_of c <? 128)%nat) (chars s).

(** [HeaderValue::from_str]: every byte is visible (32..255 except 127) or
    a tab. *)
Definition header_value_ok (s : string) : bool :=
  forallb (fun c => ((32 <=? byte_of c)%nat && negb (byte_of c =? 127)%nat)
                    || (byte_of c =? 9)%nat) (chars s).

(** [HeaderValue::to_str]: every byte is visible ASCII or a tab. *)
Definition header_to_str_ok (s : string) : bool :=
  forallb (fun c => ((32 <=? byte_of c)%nat && (byte_of c <? 127)%nat)
                    || (byte_of c =? 9)%nat) (chars s).

(** ASCII case folding ([str::to_lowercase] on the bytes the model has). *)
Definition lower_char (c : ascii) : ascii :=
  let n := byte_of c in
  if (65 <=? n)%nat && (n <=? 90)%nat then ascii_of_nat (n + 32) else c.

Definition to_lowercase (s : string) : string :=
  string_of_list_ascii (map lower_char (chars s)).

Fixpoint contains (needle hay : string) : bool :=
  starts_with needle hay ||
  match hay with
  | EmptyString => false
  | String _ r => contains needle r
  end.

(* ------------------------------------------------------------------ *)
(** ** Paths, file metadata and the view of the file system *)

Definition path := list string.

Fixpoint path_starts_with (p base : path) : bool :=
  match base, p with
  | [], _ => true
  | b :: base', x :: p' => String.eqb b x && path_starts_with p' base'
  | _, _ => false
  end.

(** [Path::strip_prefix]. *)
Fixpoint path_strip_prefix (p base : path) : option path :=
  match base, p with
  | [], _ => Some p
  | b :: base', x :: p' => if String.eqb b x then path_strip_prefix p' base' else None
  | _, _ => None
  end.

(** Components of a relative path string: empty components and [.] vanish. *)
Definition components (s : string) : path :=
  filter (fun c => negb (String.eqb c "") && negb (String.eqb c ".")) (split_on "/" s).

(** [PathBuf::join]: an absolute argument replaces the base. *)
Definition path_join (base : path) (s : string) : path :=
  if starts_with "/" s then components s else base ++ components s.

(** [Path::file_name]. *)
Definition file_name (p : path) : option string :=
  match rev p with
  | [] => None
  | x :: _ => if String.eqb x ".." then None else Some x
  end.

(** Modelled from the spec: [utils::get_file_name] (src/utils.rs is not
    among the sources): the entry's name, its last path component, or the
    empty string when there is none. *)
Definition get_file_name (p : path) : string :=
  match file_name p with Some x => x | None => "" end.

(** Modelled from the spec: [utils::try_get_file_name]: the last path
    component, an error when there is none. *)
Definition try_get_file_name (p : path) : option string := file_name p.

(** [fs::Metadata]: modification time in milliseconds since the epoch
    ([None] when the platform cannot report it). *)
Record Meta := mkMeta {
  m_is_dir : bool;
  m_is_file : bool;
  m_is_symlink : bool;
  m_len : Z;
  m_mtime : option Z
}.

(** What the request engine observes of the file system: [fs::metadata]
    (follows symbolic links), [fs::symlink_metadata] (does not),
    [fs::canonicalize], [fs::read_dir] (entry names) and reading a whole file. *)
Record FsView := mkFsView {
  fs_metadata : path -> option Meta;
  fs_symlink_metadata : path -> option Meta;
  fs_canonicalize : path -> option path;
  fs_read_dir : path -> option (list string);
  fs_read : path -> option string
}.

(* ------------------------------------------------------------------ *)
(** ** Requests and responses *)

(** [IfRange] as decoded by the headers crate: a date (seconds) or an
    entity tag (weakness, opaque tag). *)
Inductive IfRange :=
| IRDate (secs : Z)
| IRETag (weak : bool) (tag : string).

(** The request headers the engine reads.  [If-None-Match], [Range],
    [Depth] and [Destination] are kept raw; [If-Modified-Since] as decoded
    (seconds since the epoch). *)
Record Headers := mkHeaders {
  h_authorization : option string;
  h_range : option string;
  h_if_range : option IfRange;
  h_if_none_match : option string;
  h_if_modified_since : option Z;
  h_depth : option string;
  h_destination : option string
}.

Definition no_headers : Headers := mkHeaders None None None None None None None.

Record Request := mkRequest {
  req_method : string;
  req_path : string;
  req_query : list (string * string);
  req_headers : Headers;
  req_body : string
}.

Inductive PathType := Dir | SymlinkDir | File | SymlinkFile.

Record PathItem := mkPathItem {
  path_type : PathType;
  name : string;
  mtime : Z;
  size : option Z
}.

(** The body of a response: empty, a fixed text, bytes streamed from a
    file, a WebDAV multistatus of path items, or an index page carrying its
    [paths]. *)
Inductive Body :=
| BEmpty
| BText (s : string)
| BStream (bytes : string)
| BMultistatus (items : list PathItem)
| BIndex (items : list PathItem).

Record Response := mkResponse {
  r_status : Z;
  r_headers : list (string * string);
  r_body : Body
}.

Definition default_response : Response := mkResponse 200 [] BEmpty.

Definition set_status (st : Z) (r : Response) : Response :=
  mkResponse st (r_headers r) (r_body r).

Definition set_body (b : Body) (r : Response) : Response :=
  mkResponse (r_status r) (r_headers r) b.

(** [HeaderMap::insert] (header names are kept lower case). *)
Definition insert_header (k v : string) (r : Response) : Response :=
  mkResponse (r_status r)
    ((k, v) :: filter (fun kv => negb (String.eqb (fst kv) k)) (r_headers r))
    (r_body r).

Fixpoint assoc_get (k : string) (l : list (string * string)) : option string :=
  match l with
  | [] => None
  | (k', v) :: r => if String.eqb k k' then Some v else assoc_get k r
  end.

Definition get_header (k : string) (r : Response) : option string :=
  assoc_get k (r_headers r).

(* ------------------------------------------------------------------ *)
(** ** Cache validators and byte ranges *)

Definition drop_last (s : string) : string :=
  match rev_str s with
  | EmptyString => EmptyString
  | String _ r => rev_str r
  end.

Definition etag_char_ok (c : ascii) : bool :=
  let n := byte_of c in
  (n =? 33)%nat || ((35 <=? n)%nat && (n <=? 126)%nat) || (128 <=? n)%nat.

(** [EntityTag] parsing of the headers crate: [W/"tag"] (weak) or
    ["tag"] (strong); the result is the weakness and the opaque tag. *)
Definition parse_etag (s : string) : option (bool * string) :=
  let body (weak : bool) (r : string) :=
    if ends_with dq r then
      let t := drop_last r in
      if forallb etag_char_ok (chars t) then Some (weak, t) else None
    else None in
  match strip_prefix ("W/" +++ dq) s with
  | Some r => body true r
  | None =>
      match strip_prefix dq s with
      | Some r => body false r
      | None => None
      end
  end.

Definition trim_ws (s : string) : string :=
  trim_matches " " (trim_matches (ascii_of_nat 9) s).

(** [EntityTagRange::matches_weak] for the raw [If-None-Match] value:
    [*] matches everything, otherwise the comma separated tags are compared
    weakly (by their opaque tag). *)
Definition inm_matches_weak (raw : string) (etag : string) : bool :=
  if String.eqb raw "*" then true
  else
    match parse_etag etag with
    | None => false
    | Some (_, tag) =>
        existsb (fun item =>
                   match parse_etag (trim_ws item) with
                   | Some (_, t) => String.eqb t tag
                   | None => false
                   end) (split_on "," raw)
    end.

(** [IfNoneMatch::precondition_passes]. *)
Definition precondition_passes (raw : string) (etag : string) : bool :=
  negb (inm_matches_weak raw etag).

(** [IfModifiedSince::is_modified]: the date precedes the modification
    time (both in seconds). *)
Definition ims_is_modified (since last_modified : Z) : bool := (since <? last_modified)%Z.

(** [IfRange::is_modified] with both validators known. *)
Definition if_range_is_modified (ir : IfRange) (etag : string) (last_modified : Z) : bool :=
  match ir with
  | IRDate since => (since <? last_modified)%Z
  | IRETag weak tag =>
      match parse_etag etag with
      | Some (eweak, etag_t) => negb (negb weak && negb eweak && String.eqb tag etag_t)
      | None => true
      end
  end.

(** [to_timestamp]: milliseconds since the epoch as a [u64], 0 before it. *)
Definition to_timestamp (t : Z) : Z := if (t <? 0)%Z then 0 else wrap64 t.

Definition etag_string (timestamp size : Z) : string :=
  dq +++ z_to_dec timestamp +++ "-" +++ z_to_dec size +++ dq.

(** The opaque tag inside [etag_string]. *)
Definition etag_tag (timestamp size : Z) : string := z_to_dec timestamp +++ "-" +++ z_to_dec size.

(** [extract_cache_headers]: the ETag and the Last-Modified date (seconds). *)
Definition extract_cache_headers (meta : Meta) : option (string * Z) :=
  match m_mtime meta with
  | None => None
  | Some mt =>
      let timestamp := to_timestamp mt in
      let etag := etag_string timestamp (m_len meta) in
      match parse_etag etag with
      | Some _ => Some (etag, (mt / 1000)%Z)
      | None => None
      end
  end.

Record RangeValue := mkRange { start : Z; end_ : option Z }.

(** [parse_range]. *)
Definition parse_range (hdrs : Headers) : option RangeValue :=
  match h_range hdrs with
  | None => None
  | Some hdr =>
      if negb (header_to_str_ok hdr) then None else
      let '(units, rest) := split_once "=" hdr in
      if String.eqb units "bytes" then
        match rest with
        | None => None
        | Some range =>
            let '(s, e) := split_once "-" range in
            match parse_uint 64 s with
            | None => None
            | Some st =>
                match e with
                | None => Some (mkRange st None)
                | Some e =>
                    if String.eqb e "" then Some (mkRange st None)
                    else match parse_uint 64 e with
                         | Some v => Some (mkRange st (Some v))
                         | None => None
                         end
                end
            end
        end
      else None
  end.

(** [headers.typed_get::<Range>().is_some()]: a readable value starting
    with [bytes=]. *)
Definition range_header_typed (hdrs : Headers) : bool :=
  match h_range hdrs with
  | Some v => header_to_str_ok v && starts_with "bytes=" v
  | None => false
  end.

(** [File::seek(SeekFrom::Start(n))] on a regular file: [lseek] accepts
    every offset representable as an [off_t]. *)
Definition seek_ok (n : Z) : bool := (n <=? 2 ^ 63 - 1)%Z.

(** Modelled from the spec: [Streamer::into_stream_sized] (src/streamer.rs
    is not among the sources) streams exactly [part] bytes from the current
    position of the file, as far as the file has them. *)
Definition into_stream_sized (content : string) (pos part : Z) : string :=
  substring (Z.to_nat pos) (Z.to_nat part) content.

(** [set_content_disposition]. *)
Definition set_content_disposition (encode_uri : string -> string)
    (res : Response) (inline : bool) (filename : string) : option Response :=
  let kind := if inline then "inline" else "attachment" in
  let value :=
    if is_ascii filename then kind +++ "; filename=" +++ dq +++ filename +++ dq
    else kind +++ "; filename=" +++ dq +++ filename +++ dq +++ "; filename*=UTF-8''"
              +++ encode_uri filename in
  if header_value_ok value then Some (insert_header "content-disposition" value res)
  else None.

Definition is_unreserved (c : ascii) : bool :=
  let n := byte_of c in
  ((48 <=? n)%nat && (n <=? 57)%nat) || ((65 <=? n)%nat && (n <=? 90)%nat)
  || ((97 <=? n)%nat && (n <=? 122)%nat)
  || (n =? 45)%nat || (n =? 46)%nat || (n =? 95)%nat || (n =? 126)%nat.

Definition hex_digit (n : nat) : ascii :=
  if (n <? 10)%nat then ascii_of_nat (48 + n) else ascii_of_nat (55 + n).

Definition percent_encode_char (c : ascii) : string :=
  if is_unreserved c then String c EmptyString
  else String "%" (String (hex_digit (byte_of c / 16)) (String (hex_digit (byte_of c mod 16)) EmptyString)).

Definition percent_encode (s : string) : string :=
  fold_right (fun c acc => percent_encode_char c +++ acc) "" (chars s).

(** Modelled from the spec: [utils::encode_uri] (src/utils.rs is not among
    the sources): paths are percent-encoded segment by segment, the [/]
    separators kept. *)
Definition encode_uri (s : string) : string :=
  join_with "/" (map percent_encode (split_on "/" s)).

Section SendFile.

(** Content type sniffing ([get_content_type]: mime_guess on the name and
    chardetng on the first 1024 bytes) and HTTP date formatting are external
    crates; the engine only stores their text. *)
Variable get_content_type : path -> string -> string.
Variable fmt_http_date : Z -> string.

(** [Server::handle_send_file]: [None] is an [Err] of the handler, which
    [Server::call] answers with 500. *)
Definition handle_send_file (view : FsView) (p : path) (hdrs : Headers)
    (head_only : bool) : option Response :=
  match fs_read view p, fs_metadata view p with
  | Some content, Some meta =>
      let cache := extract_cache_headers meta in
      let cached :=
        match cache with
        | Some (etag, last_modified) =>
            match h_if_none_match hdrs with
            | Some inm => negb (precondition_passes inm etag)
            | None =>
                match h_if_modified_since hdrs with
                | Some ims => negb (ims_is_modified ims last_modified)
                | None => false
                end
            end
        | None => false
        end in
      if cached then Some (set_status 304 default_response) else
      let '(res, use_range) :=
        match cache with
        | Some (etag, last_modified) =>
            let res := insert_header "etag" etag
                         (insert_header "last-modified" (fmt_http_date last_modified)
                            default_response) in
            let use_range :=
              if range_header_typed hdrs then
                match h_if_range hdrs with
                | Some ir => negb (if_range_is_modified ir etag last_modified)
                | None => true
                end
              else false in
            (res, use_range)
        | None => (default_response, true)
        end in
      let range := if use_range then parse_range hdrs else None in
      let ctype := get_content_type p (substring 0 1024 content) in
      if negb (header_value_ok ctype) then None else
      let res := insert_header "content-type" ctype res in
      match try_get_file_name p with
      | None => None
      | Some filename =>
      match set_content_disposition encode_uri res true filename with
      | None => None
      | Some res =>
      let res := insert_header "accept-ranges" "bytes" res in
      let size := m_len meta in
      match range with
      | Some range =>
          let satisfiable :=
            match end_ range with
            | None => (start range <? size)%Z
            | Some v => (start range <=? v)%Z
            end in
          if satisfiable && seek_ok (start range) then
            let endv := Z.min (match end_ range with
                               | Some v => v
                               | None => wrap64 (size - 1)
                               end) (wrap64 (size - 1)) in
            let part_size := wrap64 (wrap64 (endv - start range) + 1) in
            let res := set_status 206 res in
            let res := insert_header "content-range"
                         ("bytes " +++ z_to_dec (start range) +++ "-" +++ z_to_dec endv
                          +++ "/" +++ z_to_dec size) res in
            let res := insert_header "content-length" (z_to_dec part_size) res in
            if head_only then Some res
            else Some (set_body (BStream (into_stream_sized content (start range) part_size)) res)
          else
            Some (insert_header "content-range" ("bytes */" +++ z_to_dec size)
                    (set_status 416 res))
      | None =>
          let res := insert_header "content-length" (z_to_dec size) res in
          if head_only then Some res
          else Some (set_body (BStream content) res)
      end
      end
      end
  | _, _ => None
  end.

End SendFile.

(* ------------------------------------------------------------------ *)
(** ** Configuration, access views and the dispatcher *)

Inductive AccessPerm := IndexOnly | ReadOnly | ReadWrite.

(** Modelled from the spec: [AccessPaths] (src/auth.rs is not among the
    sources): a permission kind and the immediate child names an
    index-only caller may enumerate. *)
Record AccessPaths := mkAccessPaths { ap_perm : AccessPerm; child_paths : list string }.

Definition indexonly (p : AccessPerm) : bool :=
  match p with IndexOnly => true | _ => false end.

Definition access_paths_new (p : AccessPerm) : AccessPaths := mkAccessPaths p [].

(** The guard's answer: optional user, optional access view. *)
Definition GuardResult := (option string * option AccessPaths)%type.

(** [Args], restricted to what the engine reads.  [auth_guard] is the
    consumed permission guard (relative path, method, Authorization header). *)
Record Args := mkArgs {
  root_path : path;
  path_is_file : bool;
  uri_prefix : string;
  path_prefix : string;
  allow_upload : bool;
  allow_delete : bool;
  allow_search : bool;
  allow_archive : bool;
  render_index : bool;
  render_spa : bool;
  render_try_index : bool;
  allow_symlink : bool;
  hidden : list string;
  posix_hidden : bool;
  assets_path : option path;
  auth_guard : string -> string -> option string -> GuardResult
}.

Record Server := mkServer {
  args : Args;
  assets_prefix : string;
  single_file_req_paths : list string
}.

(** [Server::init]; [version] is [CARGO_PKG_VERSION]. *)
Definition init (a : Args) (version : string) : Server :=
  let up := uri_prefix a in
  mkServer a (up +++ "__dufs_v" +++ version +++ "_")
    (if path_is_file a then
       [up; substring 0 (String.length up - 1) up;
        encode_uri (up +++ get_file_name (root_path a))]
     else []).

Definition hex_val (c : ascii) : option nat :=
  let n := byte_of c in
  if (48 <=? n)%nat && (n <=? 57)%nat then Some (n - 48)%nat
  else if (65 <=? n)%nat && (n <=? 70)%nat then Some (n - 55)%nat
  else if (97 <=? n)%nat && (n <=? 102)%nat then Some (n - 87)%nat
  else None.

Fixpoint decode_aux (l : list ascii) : option (list ascii) :=
  match l with
  | [] => Some []
  | c :: r =>
      if Ascii.eqb c "%" then
        match r with
        | h1 :: h2 :: r' =>
            match hex_val h1, hex_val h2 with
            | Some a, Some b => option_map (cons (ascii_of_nat (a * 16 + b))) (decode_aux r')
            | _, _ => None
            end
        | _ => None
        end
      else option_map (cons c) (decode_aux r)
  end.

(** Modelled from the spec: [utils::decode_uri] (src/utils.rs is not among
    the sources): percent-decoding that rejects an invalid escape. *)
Definition decode_uri (s : string) : option string :=
  option_map string_of_list_ascii (decode_aux (chars s)).

(** [Server::resolve_path]. *)
Definition resolve_path (srv : Server) (p : string) : option string :=
  let p := trim_matches "/" p in
  match decode_uri p with
  | None => None
  | Some p =>
      let prefix := path_prefix (args srv) in
      if String.eqb prefix "/" then Some p
      else option_map (trim_matches "/") (strip_prefix (trim_start "/" prefix) p)
  end.

(** [Server::join_path] on a platform whose separator is [/]. *)
Definition join_path (srv : Server) (p : string) : path :=
  if String.eqb p "" then root_path (args srv) else path_join (root_path (args srv)) p.

(** [Server::is_root_contained]. *)
Definition is_root_contained (srv : Server) (view : FsView) (p : path) : bool :=
  match fs_canonicalize view p with
  | Some c => path_starts_with c (root_path (args srv))
  | None => false
  end.

(** The query string as [form_urlencoded] pairs; a [HashMap] keeps the last
    value of a key. *)
Definition query_contains (q : list (string * string)) (k : string) : bool :=
  existsb (fun kv => String.eqb (fst kv) k) q.

Definition query_get (q : list (string * string)) (k : string) : option string :=
  fold_left (fun acc kv => if String.eqb (fst kv) k then Some (snd kv) else acc) q None.

(** The behaviour [Server::handle] selects, with the arguments it passes. *)
Inductive Action :=
| ActAsset (name : string)
| ActForbid
| ActAuthReject
| ActNotFound
| ActEmpty
| ActSendFile (p : path) (head_only : bool)
| ActZipDir (p : path) (head_only : bool) (ap : AccessPaths)
| ActSearchDir (p : path) (head_only : bool) (user : option string) (ap : AccessPaths)
| ActRenderIndex (p : path) (head_only : bool) (user : option string) (ap : AccessPaths)
| ActLsDir (p : path) (exist head_only : bool) (user : option string) (ap : AccessPaths)
| ActEditFile (p : path) (head_only : bool) (user : option string)
| ActRenderSpa (p : path) (head_only : bool)
| ActOptions
| ActUpload (p : path)
| ActDelete (p : path) (is_dir : bool)
| ActPropfindDir (p : path) (ap : AccessPaths)
| ActPropfindFile (p : path)
| ActProppatch (req_path : string)
| ActAlreadyExists
| ActMkcol (p : path)
| ActCopy (p : path)
| ActMove (p : path)
| ActLock (req_path : string) (has_auth : bool)
| ActMethodNotAllowed.

(** [Server::handle_assets] decides by the prefix alone. *)
Definition handle_assets (srv : Server) (req_path : string) : option string :=
  strip_prefix (assets_prefix srv) req_path.

(** [Server::handle]: the behaviour selected for a request. *)
Definition handle (srv : Server) (view : FsView) (req : Request) : Action :=
  let a := args srv in
  let method := req_method req in
  let rpath := req_path req in
  let hdrs := req_headers req in
  let q := req_query req in
  match (if String.eqb method "GET" then handle_assets srv rpath else None) with
  | Some name => ActAsset name
  | None =>
  match resolve_path srv rpath with
  | None => ActForbid
  | Some relative_path =>
  match auth_guard a relative_path method (h_authorization hdrs) with
  | (None, None) => ActAuthReject
  | (Some _, None) => ActForbid
  | (user, Some access_paths) =>
  if String.eqb method "WRITEABLE" then ActEmpty else
  let head_only := String.eqb method "HEAD" in
  if path_is_file a then
    if existsb (fun v => String.eqb v rpath) (single_file_req_paths srv)
    then ActSendFile (root_path a) head_only
    else ActNotFound
  else
  let p := join_path srv relative_path in
  let '(is_miss, is_dir, is_file, size) :=
    match fs_metadata view p with
    | Some m => (false, m_is_dir m, m_is_file m, m_len m)
    | None => (true, false, false, 0%Z)
    end in
  if negb (allow_symlink a) && negb is_miss && negb (is_root_contained srv view p)
  then ActNotFound else
  if String.eqb method "GET" || String.eqb method "HEAD" then
    if is_dir then
      if render_try_index a then
        if allow_archive a && query_contains q "zip" then
          if negb (allow_archive a) then ActNotFound else ActZipDir p head_only access_paths
        else if allow_search a && query_contains q "q" then
          ActSearchDir p head_only user access_paths
        else ActRenderIndex p head_only user access_paths
      else if render_index a || render_spa a then ActRenderIndex p head_only user access_paths
      else if query_contains q "zip" then
        if negb (allow_archive a) then ActNotFound else ActZipDir p head_only access_paths
      else if allow_search a && query_contains q "q" then
        ActSearchDir p head_only user access_paths
      else ActLsDir p true head_only user access_paths
    else if is_file then
      if query_contains q "edit" then ActEditFile p head_only user
      else ActSendFile p head_only
    else if render_spa a then ActRenderSpa p head_only
    else if allow_upload a && ends_with "/" rpath then
      ActLsDir p false head_only user access_paths
    else ActNotFound
  else if String.eqb method "OPTIONS" then ActOptions
  else if String.eqb method "PUT" then
    if negb (allow_upload a) || (negb (allow_delete a) && is_file && (0 <? size)%Z)
    then ActForbid else ActUpload p
  else if String.eqb method "DELETE" then
    if negb (allow_delete a) then ActForbid
    else if negb is_miss then ActDelete p is_dir
    else ActNotFound
  else if String.eqb method "PROPFIND" then
    if is_dir then
      ActPropfindDir p (if indexonly (ap_perm access_paths)
                        then access_paths_new ReadOnly else access_paths)
    else if is_file then ActPropfindFile p
    else ActNotFound
  else if String.eqb method "PROPPATCH" then
    if is_file then ActProppatch rpath else ActNotFound
  else if String.eqb method "MKCOL" then
    if negb (allow_upload a) then ActForbid
    else if negb is_miss then ActAlreadyExists
    else ActMkcol p
  else if String.eqb method "COPY" then
    if negb (allow_upload a) then ActForbid
    else if is_miss then ActNotFound
    else ActCopy p
  else if String.eqb method "MOVE" then
    if negb (allow_upload a) || negb (allow_delete a) then ActForbid
    else if is_miss then ActNotFound
    else ActMove p
  else if String.eqb method "LOCK" then
    if is_file then ActLock rpath (match h_authorization hdrs with Some _ => true | None => false end)
    else ActNotFound
  else if String.eqb method "UNLOCK" then
    if is_miss then ActNotFound else ActEmpty
  else ActMethodNotAllowed
  end
  end
  end.

(** [status_forbid], [status_not_found] and the other fixed answers. *)
Definition status_forbid : Response := mkResponse 403 [] (BText "Forbidden").
Definition status_not_found : Response := mkResponse 404 [] (BText "Not Found").
Definition status_no_content : Response := mkResponse 204 [] BEmpty.

(** The response of the embedded asset bundle ([assets_path] unset). *)
Definition embedded_asset_response (name : string) : Response :=
  if String.eqb name "index.js" then
    insert_header "cache-control" "max-age=2592000, public"
      (insert_header "content-type" "application/javascript" (mkResponse 200 [] (BText "index.js")))
  else if String.eqb name "index.css" then
    insert_header "cache-control" "max-age=2592000, public"
      (insert_header "content-type" "text/css" (mkResponse 200 [] (BText "index.css")))
  else if String.eqb name "favicon.ico" then
    insert_header "cache-control" "max-age=2592000, public"
      (insert_header "content-type" "image/x-icon" (mkResponse 200 [] (BText "favicon.ico")))
  else insert_header "cache-control" "max-age=2592000, public" status_not_found.

(* ------------------------------------------------------------------ *)
(** ** A concrete file system *)

Inductive NodeKind := KDir | KFile (content : string) | KLink (target : path).

Record Node := mkNode { n_kind : NodeKind; n_mtime : Z }.

(** Entries by absolute path; the root directory [[]] is implicit. *)
Definition Fs := list (path * Node).

Definition path_eqb (p q : path) : bool :=
  if list_eq_dec string_dec p q then true else false.

Fixpoint fs_lookup (fs : Fs) (p : path) : option Node :=
  match fs with
  | [] => None
  | (q, n) :: r => if path_eqb p q then Some n else fs_lookup r p
  end.

(** Path resolution as the kernel does it: every component is looked up,
    a symbolic link restarts resolution at its (absolute) target, [..] goes
    to the parent of what is resolved so far; [fuel] bounds the steps. *)
Fixpoint resolve (fuel : nat) (fs : Fs) (done rest : path) : option path :=
  match fuel with
  | O => None
  | S f =>
      match rest with
      | [] => Some done
      | c :: rest' =>
          if String.eqb c ".." then resolve f fs (removelast done) rest' else
          let p := done ++ [c] in
          match fs_lookup fs p with
          | None => None
          | Some n =>
              match n_kind n with
              | KDir => resolve f fs p rest'
              | KFile _ => match rest' with [] => Some p | _ => None end
              | KLink t => resolve f fs [] (t ++ rest')
              end
          end
      end
  end.

Definition resolve_fuel : nat := 256.

Definition fs_canon (fs : Fs) (p : path) : option path := resolve resolve_fuel fs [] p.

Definition root_meta : Meta := mkMeta true false false 4096 (Some 0%Z).

Definition meta_of_node (n : Node) : Meta :=
  match n_kind n with
  | KDir => mkMeta true false false 4096 (Some (n_mtime n))
  | KFile c => mkMeta false true false (Z.of_nat (String.length c)) (Some (n_mtime n))
  | KLink t => mkMeta false false true (Z.of_nat (String.length (join_with "/" t)))
                      (Some (n_mtime n))
  end.

Definition node_at (fs : Fs) (c : path) : option Node :=
  match c with [] => Some (mkNode KDir 0) | _ => fs_lookup fs c end.

Definition fs_stat (fs : Fs) (p : path) : option Meta :=
  match fs_canon fs p with
  | Some c => option_map meta_of_node (node_at fs c)
  | None => None
  end.

Definition fs_lstat (fs : Fs) (p : path) : option Meta :=
  match rev p with
  | [] => Some root_meta
  | last :: _ =>
      if String.eqb last ".." then fs_stat fs p else
      match fs_canon fs (removelast p) with
      | Some cp => option_map meta_of_node (fs_lookup fs (cp ++ [last]))
      | None => None
      end
  end.

Definition children (fs : Fs) (c : path) : list string :=
  flat_map (fun e => match path_strip_prefix (fst e) c with
                     | Some [x] => [x]
                     | _ => []
                     end) fs.

Definition fs_list (fs : Fs) (p : path) : option (list string) :=
  match fs_canon fs p with
  | Some c =>
      match node_at fs c with
      | Some n => match n_kind n with KDir => Some (children fs c) | _ => None end
      | None => None
      end
  | None => None
  end.

Definition fs_cat (fs : Fs) (p : path) : option string :=
  match fs_canon fs p with
  | Some c =>
      match node_at fs c with
      | Some n => match n_kind n with KFile s => Some s | _ => None end
      | None => None
      end
  | None => None
  end.

Definition view_of (fs : Fs) : FsView :=
  mkFsView (fs_stat fs) (fs_lstat fs) (fs_canon fs) (fs_list fs) (fs_cat fs).

(** Mutations act on the literal path (the model does not resolve symbolic
    links among the parents of a path that is written). *)
Definition fs_remove (fs : Fs) (p : path) : Fs :=
  filter (fun e => negb (path_eqb (fst e) p)) fs.

Definition fs_put (fs : Fs) (p : path) (n : Node) : Fs := (p, n) :: fs_remove fs p.

Definition is_dir_node (n : option Node) : bool :=
  match n with Some n => match n_kind n with KDir => true | _ => false end | None => false end.

(** [fs::create_dir_all]: every missing ancestor is created; an existing
    non-directory is an error. *)
Fixpoint create_dir_all_aux (fs : Fs) (done rest : path) (now : Z) : option Fs :=
  match rest with
  | [] => Some fs
  | c :: rest' =>
      let p := done ++ [c] in
      match fs_lookup fs p with
      | None => create_dir_all_aux (fs_put fs p (mkNode KDir now)) p rest' now
      | Some _ =>
          match fs_stat fs p with
          | Some m => if m_is_dir m then create_dir_all_aux fs p rest' now else None
          | None => None
          end
      end
  end.

Definition create_dir_all (fs : Fs) (p : path) (now : Z) : option Fs :=
  create_dir_all_aux fs [] p now.

(** [Path::parent]. *)
Definition parent (p : path) : option path :=
  match p with [] => None | _ => Some (removelast p) end.

(** [ensure_path_parent]. *)
Definition ensure_path_parent (fs : Fs) (p : path) (now : Z) : option Fs :=
  match parent p with
  | Some par =>
      match fs_lstat fs par with
      | None => create_dir_all fs par now
      | Some _ => Some fs
      end
  | None => Some fs
  end.

(** [fs::File::create] followed by writing [body]: an existing target is
    truncated (through a symbolic link), a directory cannot be opened for
    writing, a missing target is created in an existing parent directory. *)
Definition file_create (fs : Fs) (p : path) (body : string) (now : Z) : option Fs :=
  match fs_canon fs p with
  | Some c =>
      match node_at fs c with
      | Some n =>
          match n_kind n with
          | KFile _ => Some (fs_put fs c (mkNode (KFile body) now))
          | _ => None
          end
      | None => None
      end
  | None =>
      match rev p with
      | [] => None
      | last :: _ =>
          match fs_lookup fs p with
          | Some _ => None
          | None =>
              match fs_canon fs (removelast p) with
              | Some cp =>
                  if is_dir_node (node_at fs cp)
                  then Some (fs_put fs (cp ++ [last]) (mkNode (KFile body) now))
                  else None
              | None => None
              end
          end
      end
  end.



(** [fs::copy]: the contents of a regular file (links followed) are written
    to [dst]. *)
Definition fs_copy (fs : Fs) (src dst : path) (now : Z) : option Fs :=
  match fs_cat fs src with
  | Some content => file_create fs dst content now
  | None => None
  end.

(** [http::Uri] parsing, reduced to the path it yields: origin form,
    absolute form ([scheme://authority/path]), authority form (empty path). *)
Definition uri_path (s : string) : option string :=
  if String.eqb s "" then None
  else if starts_with "/" s then Some (fst (split_once "?" s))
  else match index 0 "://" s with
       | Some i =>
           let rest := substring (i + 3) (String.length s) s in
           let after := fst (split_once "?" rest) in
           match split_once "/" after with
           | (_, Some p) => Some ("/" +++ p)
           | (_, None) => Some "/"
           end
       | None => Some ""
       end.

(** [Server::extract_destination_header]. *)
Definition extract_destination_header (hdrs : Headers) : option string :=
  match h_destination hdrs with
  | Some d => if header_to_str_ok d then uri_path d else None
  | None => None
  end.

(** [Server::extract_dest]: the destination, or the response already set. *)
Definition extract_dest (srv : Server) (req : Request) : Response + path :=
  match extract_destination_header (req_headers req) with
  | None => inl (mkResponse 400 [] BEmpty)
  | Some dest_path =>
      match resolve_path srv dest_path with
      | None => inl (mkResponse 400 [] BEmpty)
      | Some relative_path =>
          match auth_guard (args srv) relative_path (req_method req)
                  (h_authorization (req_headers req)) with
          | (_, Some _) => inr (join_path srv relative_path)
          | _ => inl status_forbid
          end
      end
  end.


Definition handle_copy (srv : Server) (fs : Fs) (p : path) (req : Request) (now : Z)
    : Fs * option Response :=
  match extract_dest srv req with
  | inl res => (fs, Some res)
  | inr dest =>
      match fs_lstat fs p with
      | None => (fs, None)
      | Some meta =>
          if m_is_dir meta then (fs, Some status_forbid) else
          match ensure_path_parent fs dest now with
          | None => (fs, None)
          | Some fs =>
              match fs_copy fs p dest now with
              | None => (fs, None)
              | Some fs => (fs, Some status_no_content)
              end
          end
      end
  end.

Definition handle_upload (fs : Fs) (p : path) (req : Request) (now : Z)
    : Fs * option Response :=
  match ensure_path_parent fs p now with
  | None => (fs, None)
  | Some fs =>
      match file_create fs p (req_body req) now with
      | None => (fs, Some status_forbid)
      | Some fs => (fs, Some (mkResponse 201 [] BEmpty))
      end
  end.

(* ------------------------------------------------------------------ *)
(** ** Path items, the hidden filter and the directory lister *)

Definition pathitem_is_dir (v : PathItem) : bool :=
  match path_type v with Dir | SymlinkDir => true | _ => false end.

(** [Server::to_pathitem]: [None] is an [Err], [Some None] an entry left
    out (a symbolic link escaping the root while links are not allowed). *)
Definition to_pathitem (srv : Server) (view : FsView) (p base_path : path)
    : option (option PathItem) :=
  match fs_metadata view p, fs_symlink_metadata view p with
  | Some meta, Some meta2 =>
      let is_symlink := m_is_symlink meta2 in
      if negb (allow_symlink (args srv)) && is_symlink
         && negb (is_root_contained srv view p)
      then Some None else
      let is_dir := m_is_dir meta in
      let path_type := match is_symlink, is_dir with
                       | true, true => SymlinkDir
                       | false, true => Dir
                       | true, false => SymlinkFile
                       | false, false => File
                       end in
      match m_mtime meta with
      | None => None
      | Some mt =>
          let mtime := to_timestamp mt in
          let size := match path_type with
                      | Dir | SymlinkDir => None
                      | File | SymlinkFile => Some (m_len meta)
                      end in
          match path_strip_prefix p base_path with
          | None => None
          | Some rel_path =>
              Some (Some (mkPathItem path_type (join_with "/" rel_path) mtime size))
          end
      end
  | _, _ => None
  end.

(** Matching of one character class of a glob pattern: [?] any character,
    anything else itself. *)
Definition glob_char (p c : ascii) : bool := Ascii.eqb p "?" || Ascii.eqb p c.

Fixpoint glob_aux (pat s : list ascii) : bool :=
  match pat with
  | [] => match s with [] => true | _ => false end
  | p :: pat' =>
      if Ascii.eqb p "*" then
        (fix star (s : list ascii) : bool :=
           glob_aux pat' s || match s with [] => false | _ :: s' => star s' end) s
      else match s with
           | [] => false
           | c :: s' => glob_char p c && glob_aux pat' s'
           end
  end.

(** Modelled from the spec: [utils::glob] (src/utils.rs is not among the
    sources): shell-style matching of the whole name, [*] any run of
    characters, [?] one character. *)
Definition glob (pattern target : string) : bool := glob_aux (chars pattern) (chars target).

Definition strip_suffix (sfx s : string) : option string :=
  option_map rev_str (strip_prefix (rev_str sfx) (rev_str s)).

(** [is_hidden]. *)
Definition is_hidden (hidden : list string) (posix_hidden : bool) (file_name : string)
    (is_dir_type : bool) : bool :=
  if posix_hidden && starts_with "." file_name then true else
  existsb (fun v =>
             if is_dir_type then
               match strip_suffix "/" v with
               | Some x => glob x file_name
               | None => glob v file_name
               end
             else glob v file_name) hidden.

(** [Server::add_pathitem]: the list grows at its end. *)
Definition add_pathitem (srv : Server) (view : FsView) (paths : list PathItem)
    (base_path entry_path : path) : list PathItem :=
  let base_name := get_file_name entry_path in
  match to_pathitem srv view entry_path base_path with
  | Some (Some item) =>
      if is_hidden (hidden (args srv)) (posix_hidden (args srv)) base_name
           (pathitem_is_dir item)
      then paths else paths ++ [item]
  | _ => paths
  end.

(** [Server::list_dir]; [None] is an [Err] of [fs::read_dir]. *)
Definition list_dir (srv : Server) (view : FsView) (entry_path base_path : path)
    (access_paths : AccessPaths) : option (list PathItem) :=
  if indexonly (ap_perm access_paths) then
    Some (fold_left (fun acc name => add_pathitem srv view acc base_path (path_join entry_path name))
            (child_paths access_paths) [])
  else
    match fs_read_dir view entry_path with
    | None => None
    | Some names =>
        Some (fold_left (fun acc name => add_pathitem srv view acc base_path (entry_path ++ [name]))
                names [])
    end.

(** [res_multistatus]: the body is the multistatus document of the items'
    [to_dav_xml], represented by the items. *)
Definition res_multistatus (items : list PathItem) (res : Response) : Response :=
  set_body (BMultistatus items)
    (insert_header "content-type" "application/xml; charset=utf-8" (set_status 207 res)).

(** The [Depth] header: [inl] the depth, [inr] a value that does not parse
    as a [u32]. *)
Definition parse_depth (hdrs : Headers) : Z + unit :=
  match h_depth hdrs with
  | Some v =>
      if header_to_str_ok v then
        match parse_uint 32 v with Some d => inl d | None => inr tt end
      else inr tt
  | None => inl 1%Z
  end.

(** [Server::handle_propfind_dir]. *)
Definition handle_propfind_dir (srv : Server) (view : FsView) (p : path) (hdrs : Headers)
    (access_paths : AccessPaths) : option Response :=
  match parse_depth hdrs with
  | inr _ => Some (set_status 400 default_response)
  | inl depth =>
      match to_pathitem srv view p (root_path (args srv)) with
      | None => None
      | Some first =>
          let paths := match first with Some v => [v] | None => [] end in
          if negb (depth =? 0)%Z then
            match list_dir srv view p (root_path (args srv)) access_paths with
            | Some child => Some (res_multistatus (paths ++ child) default_response)
            | None => Some status_forbid
            end
          else Some (res_multistatus paths default_response)
      end
  end.

(* ------------------------------------------------------------------ *)
(** ** Ordering of path items and the index page *)

Definition path_type_rank (t : PathType) : nat :=
  match t with Dir => 0 | SymlinkDir => 1 | File => 2 | SymlinkFile => 3 end.

Definition option_z_cmp (a b : option Z) : comparison :=
  match a, b with
  | None, None => Eq
  | None, Some _ => Lt
  | Some _, None => Gt
  | Some x, Some y => Z.compare x y
  end.

(** The derived [Ord] of [PathItem]: the fields in declaration order,
    [PathType] by variant, [String] by bytes, [None] below [Some]. *)
Definition pathitem_cmp (a b : PathItem) : comparison :=
  match Nat.compare (path_type_rank (path_type a)) (path_type_rank (path_type b)) with
  | Eq =>
      match String.compare (name a) (name b) with
      | Eq =>
          match Z.compare (mtime a) (mtime b) with
          | Eq => option_z_cmp (size a) (size b)
          | c => c
          end
      | c => c
      end
  | c => c
  end.

(** Two items in the derived order. *)
Definition pathitem_le (a b : PathItem) : Prop := pathitem_cmp a b <> Gt.

Section Sorting.
Context {A : Type}.
Variable cmp : A -> A -> comparison.

Fixpoint insert_by (x : A) (l : list A) : list A :=
  match l with
  | [] => [x]
  | y :: l' => match cmp x y with Gt => y :: insert_by x l' | _ => x :: l end
  end.

(** A stable sort ([slice::sort_by]); for a total order whose equal
    elements are identical it is also what [sort_unstable] produces. *)
Fixpoint sort_by (l : list A) : list A :=
  match l with
  | [] => []
  | x :: l' => insert_by x (sort_by l')
  end.
End Sorting.

Definition lines_of (paths : list PathItem) : string :=
  fold_right (fun v acc =>
                (if pathitem_is_dir v then name v +++ "/" else name v)
                  +++ String "010"%char EmptyString +++ acc) "" paths.

Section Index.
(** [alphanumeric_sort::compare_str], an external crate. *)
Variable compare_str : string -> string -> comparison.

(** [Server::send_index].  The JSON and HTML renderings embed [paths];
    the rendered page is represented by those items. *)
Definition send_index (srv : Server) (p : path) (paths : list PathItem) (exist : bool)
    (q : list (string * string)) (head_only : bool) (user : option string)
    : option Response :=
  let paths :=
    match query_get q "sort" with
    | Some sort =>
        let paths :=
          if String.eqb sort "name" then
            sort_by (fun v1 v2 => compare_str (to_lowercase (name v1)) (to_lowercase (name v2))) paths
          else if String.eqb sort "mtime" then
            sort_by (fun v1 v2 => Z.compare (mtime v1) (mtime v2)) paths
          else if String.eqb sort "size" then
            sort_by (fun v1 v2 => Z.compare (match size v1 with Some s => s | None => 0%Z end)
                                            (match size v2 with Some s => s | None => 0%Z end)) paths
          else paths in
        if match query_get q "order" with Some v => String.eqb v "desc" | None => false end
        then rev paths else paths
    | None => sort_by pathitem_cmp paths
    end in
  if query_contains q "simple" then
    let output := lines_of paths in
    Some (set_body (BText output)
            (insert_header "content-length" (z_to_dec (Z.of_nat (String.length output)))
               (insert_header "content-type" "text/html; charset=utf-8" default_response)))
  else
    match path_strip_prefix p (root_path (args srv)) with
    | None => None
    | Some _ =>
        let res := insert_header "content-type"
                     (if query_contains q "json" then "application/json"
                      else "text/html; charset=utf-8") default_response in
        if head_only then Some res else Some (set_body (BIndex paths) res)
    end.

(** [Server::handle_ls_dir]. *)
Definition handle_ls_dir (srv : Server) (view : FsView) (p : path) (exist : bool)
    (q : list (string * string)) (head_only : bool) (user : option string)
    (access_paths : AccessPaths) : option Response :=
  if exist then
    match list_dir srv view p p access_paths with
    | None => Some status_forbid
    | Some paths => send_index srv p paths exist q head_only user
    end
  else send_index srv p [] exist q head_only user.

End Index.

(** The [order=desc] test of [send_index]. *)
Definition index_order_desc (q : list (string * string)) : bool :=
  match query_get q "order" with Some v => String.eqb v "desc" | None => false end.

(* ------------------------------------------------------------------ *)
(** ** The tree walks of search and zip *)

(** Modelled from the spec: [AccessPaths::leaf_paths]: the subtrees the
    caller may traverse, the directory itself or, index-only, its
    enumerated children. *)
Definition leaf_paths (ap : AccessPaths) (base : path) : list path :=
  if indexonly (ap_perm ap) then map (path_join base) (child_paths ap) else [base].

(** The loop body shared by [handle_search_dir] and [zip_dir] over a
    [WalkDir] that does not follow links: [keep] is the per-entry test after
    the hidden filter.  The root of the walk is described with its link
    followed ([follow_root_links]), the entries below it without.  The result
    is the kept paths and whether the walk stopped on an error (the
    [while let Some(Ok(entry))] ends). *)
Fixpoint walk (fuel : nat) (fs : Fs) (hidden : list string) (posix_hidden : bool)
    (keep : path -> Meta -> bool) (is_root : bool) (entry_path : path) : list path * bool :=
  match fuel with
  | O => ([], true)
  | S f =>
      match (if is_root then fs_stat fs entry_path else fs_lstat fs entry_path) with
      | None => ([], true)
      | Some file_type =>
          let base_name := get_file_name entry_path in
          let is_dir_type :=
            if m_is_symlink file_type then
              match fs_lstat fs entry_path with
              | Some meta => Some (m_is_dir meta)
              | None => None
              end
            else Some (m_is_dir file_type) in
          match is_dir_type with
          | None => ([], false)
          | Some is_dir_type =>
              if is_hidden hidden posix_hidden base_name is_dir_type then ([], false) else
              let here := if keep entry_path file_type then [entry_path] else [] in
              if m_is_dir file_type then
                match fs_list fs entry_path with
                | None => (here, true)
                | Some names =>
                    let '(ps, stopped) :=
                      fold_left (fun (acc : list path * bool) (n : string) =>
                                   let '(ps, stopped) := acc in
                                   if stopped then acc else
                                   let '(ps', stopped') :=
                                     walk f fs hidden posix_hidden keep false (entry_path ++ [n]) in
                                   (ps ++ ps', stopped'))
                                names ([], false) in
                    (here ++ ps, stopped)
                end
              else (here, false)
          end
      end
  end.

Definition walk_fuel : nat := 64.

Definition walk_leaves (fs : Fs) (hidden : list string) (posix_hidden : bool)
    (keep : path -> Meta -> bool) (ap : AccessPaths) (base : path) : list path :=
  flat_map (fun dir => fst (walk walk_fuel fs hidden posix_hidden keep true dir)) (leaf_paths ap base).

(** The paths [handle_search_dir] collects for the lowercased query. *)
Definition search_paths (srv : Server) (fs : Fs) (search : string) (ap : AccessPaths)
    (p : path) : list path :=
  walk_leaves fs (hidden (args srv)) (posix_hidden (args srv))
    (fun entry_path _ => contains search (to_lowercase (get_file_name entry_path))) ap p.

(** [Server::handle_search_dir] ([None] is an [Err]: no [q]). *)
Definition handle_search_dir (compare_str : string -> string -> comparison)
    (srv : Server) (fs : Fs) (p : path) (q : list (string * string)) (head_only : bool)
    (user : option string) (ap : AccessPaths) : option Response :=
  match query_get q "q" with
  | None => None
  | Some search =>
      let search := to_lowercase search in
      let paths :=
        if String.eqb search "" then [] else
        flat_map (fun sp => match to_pathitem srv (view_of fs) sp p with
                            | Some (Some item) => [item]
                            | _ => []
                            end)
          (search_paths srv fs search ap p) in
      send_index compare_str srv p paths true q head_only user
  end.


(** No [If-Range] validator fails: the header is absent, the file has no
    validators, or the validators still match. *)
Definition if_range_passes (hdrs : Headers) (meta : Meta) : bool :=
  match h_if_range hdrs, extract_cache_headers meta with
  | Some ir, Some (etag, last_modified) => negb (if_range_is_modified ir etag last_modified)
  | _, _ => true
  end.

(** [Server::call]: an [Err] of the handler becomes an empty 500. *)
(** The same headers with another [If-Modified-Since]. *)
Definition with_ims (hdrs : Headers) (ims : option Z) : Headers :=
  mkHeaders (h_authorization hdrs) (h_range hdrs) (h_if_range hdrs) (h_if_none_match hdrs)
            ims (h_depth hdrs) (h_destination hdrs).

Definition status_of_result (r : option Response) : Z :=
  match r with Some r => r_status r | None => 500 end.

(* ------------------------------------------------------------------ *)
(** ** Deleting, creating collections, WebDAV properties, CORS and SPA *)





(** [PathItem::base_name]: the last [/]-separated segment of the name. *)
Definition base_name (v : PathItem) : string := last (split_on "/" (name v)) "".

Definition INDEX_NAME : string := "index.html".

(** [Path::extension]: the part of the file name after its last [.],
    unless the part before that dot is empty ([rsplit_file_at_dot]). *)
Definition extension (p : path) : option string :=
  match file_name p with
  | None => None
  | Some f =>
      if String.eqb f ".." then None else
      match split_once "." (rev_str f) with
      | (_, None) => None
      | (after, Some before) => if String.eqb before "" then None else Some (rev_str after)
      end
  end.

(** [Server::handle_render_spa]. *)
Definition handle_render_spa (get_content_type : path -> string -> string)
    (fmt_http_date : Z -> string) (srv : Server) (view : FsView) (p : path)
    (hdrs : Headers) (head_only : bool) : option Response :=
  match extension p with
  | None => handle_send_file get_content_type fmt_http_date view
              (path_join (root_path (args srv)) INDEX_NAME) hdrs head_only
  | Some _ => Some status_not_found
  end.

(* ------------------------------------------------------------------ *)
(** ** Example configurations and trees *)

(** A guard that admits everyone with full access, and one that knows
    the user but grants nothing. *)
Definition allow_all : string -> string -> option string -> GuardResult :=
  fun _ _ _ => (None, Some (access_paths_new ReadWrite)).

Definition deny_guest : string -> string -> option string -> GuardResult :=
  fun _ _ _ => (Some "guest", None).

Definition ex_args (root : path) (is_file upload delete symlink : bool) (hidden : list string)
    (guard : string -> string -> option string -> GuardResult) : Args :=
  mkArgs root is_file "/" "/" upload delete true true false false false symlink hidden false
    None guard.

Definition ex_server (root : path) (is_file upload delete symlink : bool) (hidden : list string)
    (guard : string -> string -> option string -> GuardResult) : Server :=
  init (ex_args root is_file upload delete symlink hidden guard) "0.43.0".

(** [/srv] is served; [/srv/foo] links to the directory [/srv/real],
    [/srv/esc] to [/out], outside the root. *)
Definition ex_fs : Fs :=
  [ (["srv"], mkNode KDir 1000);
    (["srv"; "a.txt"], mkNode (KFile "0123456789") 1700000000000);
    (["srv"; "d"], mkNode KDir 1000);
    (["srv"; "d"; "x"], mkNode (KFile "x") 1000);
    (["srv"; "real"], mkNode KDir 1000);
    (["srv"; "real"; "r.txt"], mkNode (KFile "r") 1000);
    (["srv"; "foo"], mkNode (KLink ["srv"; "real"]) 1000);
    (["out"], mkNode KDir 1000);
    (["out"; "secret"], mkNode (KFile "s") 1000);
    (["srv"; "esc"], mkNode (KLink ["out"]) 1000) ].

Definition ex_view : FsView := view_of ex_fs.

(** A name with a line feed in it, and a tree holding a file of that name. *)
Definition nl_name : string := "a" +++ String "010"%char "b".

Definition ex_fs_nl : Fs := (["srv"; nl_name], mkNode (KFile "0123456789") 1000) :: ex_fs.

Definition ex_content_type (_ : path) (_ : string) : string := "text/plain".
Definition ex_http_date (_ : Z) : string := "Tue, 14 Nov 2023 22:13:20 GMT".

(** Byte order standing for [alphanumeric_sort::compare_str]. *)
Definition ex_compare_str : string -> string -> comparison := String.compare.

Definition range_hdrs (r : string) : Headers :=
  mkHeaders None (Some r) None None None None None.

Definition depth_hdrs (d : string) : Headers :=
  mkHeaders None None None None None (Some d) None.

Definition dest_hdrs (d : string) : Headers :=
  mkHeaders None None None None None None (Some d).

Definition inm_hdrs (t : string) : Headers :=
  mkHeaders None None None (Some t) None None None.

(* ================================================================== *)
(** * Lemmas on the string and number helpers *)

Lemma chars_append (a b : string) : chars (a +++ b) = chars a ++ chars b.
Proof. induction a as [|c a IH]; simpl; [reflexivity | now rewrite IH]. Qed.

Lemma digit_char (k : nat) :
  (k < 10)%nat ->
  is_digit (ascii_of_nat (48 + k)) = true /\ digit_val (ascii_of_nat (48 + k)) = Z.of_nat k.
Proof.
  intros Hk. unfold is_digit, digit_val, byte_of.
  rewrite Ascii.nat_ascii_embedding by lia.
  split; [apply andb_true_intro; split; apply Nat.leb_le; lia | f_equal; lia].
Qed.

Lemma mod10_small (n : Z) : (Z.to_nat (n mod 10) < 10)%nat.
Proof. pose proof (Z.mod_pos_bound n 10 ltac:(lia)). lia. Qed.

Lemma dec_aux_digits f : forall n acc c,
  In c (chars (dec_aux f n acc)) -> In c (chars acc) \/ is_digit c = true.
Proof.
  induction f as [|f IH]; intros n acc c H; simpl in H; [now left|].
  destruct (n <? 10)%Z.
  - simpl in H. destruct H as [<-|H]; [right; apply digit_char, mod10_small | now left].
  - apply IH in H. simpl in H. destruct H as [[<-|H]|H]; auto.
    right; apply digit_char, mod10_small.
Qed.

Lemma z_to_dec_digits n c : In c (chars (z_to_dec n)) -> is_digit c = true.
Proof. intros H. apply dec_aux_digits in H. destruct H as [[]|H]; exact H. Qed.

Lemma dec_aux_nonempty f : forall n acc, acc <> EmptyString -> dec_aux f n acc <> EmptyString.
Proof.
  induction f as [|f IH]; intros n acc H; simpl; [exact H|].
  destruct (n <? 10)%Z; [discriminate | apply IH; discriminate].
Qed.

Lemma z_to_dec_nonempty n : z_to_dec n <> EmptyString.
Proof.
  unfold z_to_dec. simpl. destruct (n <? 10)%Z; [discriminate|].
  apply dec_aux_nonempty; discriminate.
Qed.

Lemma parse_dec_aux f : forall n acc a,
  (0 <= n < 10 ^ Z.of_nat f)%Z ->
  exists k, (0 <= k)%Z /\ parse_digits a (dec_aux f n acc) = parse_digits (a * 10 ^ k + n)%Z acc.
Proof.
  induction f as [|f IH]; intros n acc a Hn.
  - simpl in Hn. exists 0%Z. split; [lia|]. simpl. f_equal; lia.
  - rewrite Nat2Z.inj_succ, Z.pow_succ_r in Hn by lia.
    pose proof (Z.mod_pos_bound n 10 ltac:(lia)) as Hm.
    destruct (digit_char _ (mod10_small n)) as [Hd Hv].
    set (d := ascii_of_nat (48 + Z.to_nat (n mod 10))) in *.
    cbn [dec_aux]. fold d. destruct (Z.ltb_spec n 10).
    + exists 1%Z. split; [lia|]. cbn [parse_digits]. rewrite Hd, Hv.
      rewrite Z2Nat.id by lia. rewrite Z.mod_small by lia. f_equal; lia.
    + destruct (IH (n / 10)%Z (String d acc) a) as [k [Hk Hp]].
      { split; [apply Z.div_pos; lia|]. apply Z.div_lt_upper_bound; lia. }
      exists (k + 1)%Z. split; [lia|]. rewrite Hp. cbn [parse_digits]. rewrite Hd, Hv.
      rewrite Z2Nat.id by lia. f_equal.
      rewrite Z.pow_add_r by lia.
      pose proof (Z.div_mod n 10 ltac:(lia)). lia.
Qed.

Lemma dec_fuel n : (0 <= n)%Z -> (n < 10 ^ Z.of_nat (S (Z.to_nat (Z.log2 n))))%Z.
Proof.
  intros Hn. rewrite Nat2Z.inj_succ, Z2Nat.id by apply Z.log2_nonneg.
  destruct (Z.eq_dec n 0) as [->|Hn0]; [reflexivity|].
  destruct (Z.log2_spec n ltac:(lia)) as [_ H2].
  eapply Z.lt_le_trans; [exact H2|].
  apply Z.pow_le_mono_l. split; [lia|]. lia.
Qed.

Lemma parse_digits_z_to_dec n : (0 <= n)%Z -> parse_digits 0 (z_to_dec n) = Some n.
Proof.
  intros Hn. unfold z_to_dec.
  destruct (parse_dec_aux _ n "" 0%Z (conj Hn (dec_fuel n Hn))) as [k [_ ->]].
  simpl. f_equal.
Qed.

Lemma parse_uint_z_to_dec bits n :
  (0 <= n < 2 ^ bits)%Z -> parse_uint bits (z_to_dec n) = Some n.
Proof.
  intros Hn. unfold parse_uint.
  pose proof (z_to_dec_nonempty n) as Hne.
  pose proof (parse_digits_z_to_dec n ltac:(lia)) as Hp.
  destruct (z_to_dec n) as [|c r] eqn:E; [contradiction|].
  assert (Hc : is_digit c = true) by (apply (z_to_dec_digits n); rewrite E; now left).
  destruct (Ascii.eqb_spec c "+") as [->|_]; [discriminate|].
  rewrite Hp. destruct (Z.ltb_spec n (2 ^ bits)); [reflexivity | lia].
Qed.

Lemma split_once_app c x y :
  ~ In c (chars x) -> split_once c (x +++ String c y) = (x, Some y).
Proof.
  induction x as [|a x IH]; intros H; simpl.
  - now rewrite Ascii.eqb_refl.
  - simpl in H. destruct (Ascii.eqb_spec a c) as [->|_]; [tauto|].
    rewrite IH by tauto. reflexivity.
Qed.

Lemma digit_not c d : is_digit d = true -> is_digit c = false -> c <> d.
Proof. intros H1 H2 ->. congruence. Qed.

Lemma z_to_dec_no_char n c : is_digit c = false -> ~ In c (chars (z_to_dec n)).
Proof. intros Hc Hin. apply z_to_dec_digits in Hin. congruence. Qed.

Lemma forallb_z_to_dec (f : ascii -> bool) n :
  (forall c, is_digit c = true -> f c = true) -> forallb f (chars (z_to_dec n)) = true.
Proof.
  intros Hf. apply forallb_forall. intros c Hc. apply Hf, (z_to_dec_digits n), Hc.
Qed.

Lemma is_digit_range c : is_digit c = true -> (48 <= byte_of c <= 57)%nat.
Proof. unfold is_digit. intros H. apply andb_true_iff in H as [H1 H2].
  apply Nat.leb_le in H1, H2. lia. Qed.

Lemma header_to_str_ok_app a b :
  header_to_str_ok (a +++ b) = header_to_str_ok a && header_to_str_ok b.
Proof. unfold header_to_str_ok. now rewrite chars_append, forallb_app. Qed.

Lemma header_value_ok_app a b :
  header_value_ok (a +++ b) = header_value_ok a && header_value_ok b.
Proof. unfold header_value_ok. now rewrite chars_append, forallb_app. Qed.

Lemma header_to_str_ok_dec n : header_to_str_ok (z_to_dec n) = true.
Proof.
  apply forallb_z_to_dec. intros c Hc. apply is_digit_range in Hc.
  apply orb_true_intro; left. apply andb_true_intro; split; apply Nat.leb_le || apply Nat.ltb_lt; lia.
Qed.

Lemma parse_range_dec hdrs s e :
  h_range hdrs = Some ("bytes=" +++ z_to_dec s +++ "-" +++ z_to_dec e) ->
  (0 <= s < 2 ^ 64)%Z -> (0 <= e < 2 ^ 64)%Z ->
  parse_range hdrs = Some (mkRange s (Some e)).
Proof.
  intros Hr Hs He. unfold parse_range. rewrite Hr.
  rewrite !header_to_str_ok_app, !header_to_str_ok_dec. simpl.
  rewrite split_once_app by (apply z_to_dec_no_char; reflexivity).
  rewrite !parse_uint_z_to_dec by assumption.
  destruct (String.eqb_spec (z_to_dec e) "") as [H|_];
    [now apply z_to_dec_nonempty in H | reflexivity].
Qed.


Lemma starts_with_app p x : starts_with p (p +++ x) = true.
Proof. induction p as [|c p IH]; simpl; [reflexivity|]. now rewrite Ascii.eqb_refl, IH. Qed.

Lemma header_value_ok_percent_encode_char c : header_value_ok (percent_encode_char c) = true.
Proof. destruct c as [[] [] [] [] [] [] [] []]; vm_compute; reflexivity. Qed.

Lemma header_value_ok_encode_uri s : header_value_ok (encode_uri s) = true.
Proof.
  unfold encode_uri.
  assert (Hp : forall x, header_value_ok (percent_encode x) = true).
  { intros x. unfold percent_encode. induction (chars x) as [|c l IH]; [reflexivity|].
    simpl. rewrite header_value_ok_app, header_value_ok_percent_encode_char. exact IH. }
  induction (split_on "/" s) as [|x [|y l] IH]; [reflexivity | apply Hp |].
  change (header_value_ok (percent_encode x +++ "/" +++ join_with "/" (map percent_encode (y :: l))) = true).
  rewrite !header_value_ok_app, Hp. exact IH.
Qed.

Lemma set_content_disposition_some res inline filename :
  header_value_ok filename = true ->
  exists v, set_content_disposition encode_uri res inline filename
            = Some (insert_header "content-disposition" v res).
Proof.
  intros Hf. unfold set_content_disposition.
  destruct (is_ascii filename), inline;
    rewrite ?header_value_ok_app, ?Hf, ?header_value_ok_encode_uri; simpl; eauto.
Qed.

Lemma get_header_insert k k' v r :
  get_header k (insert_header k' v r) =
  if String.eqb k k' then Some v else get_header k r.
Proof.
  unfold get_header, insert_header; simpl.
  destruct (String.eqb_spec k k') as [->|Hne].
  - rewrite ?String.eqb_refl; reflexivity.
  - destruct (String.eqb_spec k k'); [contradiction|].
    induction (r_headers r) as [|[k0 v0] l IH]; [reflexivity|]. simpl.
    destruct (String.eqb_spec k0 k'); simpl.
    + rewrite IH. destruct (String.eqb_spec k k0); [congruence|reflexivity].
    + destruct (String.eqb k k0); [reflexivity|exact IH].
Qed.

Lemma get_header_set_body k b r : get_header k (set_body b r) = get_header k r.
Proof. reflexivity. Qed.

Lemma get_header_set_status k st r : get_header k (set_status st r) = get_header k r.
Proof. reflexivity. Qed.

Lemma range_header_typed_dec hdrs s e :
  h_range hdrs = Some ("bytes=" +++ z_to_dec s +++ "-" +++ z_to_dec e) ->
  range_header_typed hdrs = true.
Proof.
  intros Hr. unfold range_header_typed. rewrite Hr.
  rewrite !header_to_str_ok_app, !header_to_str_ok_dec, starts_with_app. reflexivity.
Qed.


Lemma rev_str_app_char x c : rev_str (x +++ String c EmptyString) = String c (rev_str x).
Proof.
  unfold rev_str. rewrite chars_append. simpl. rewrite rev_app_distr. simpl.
  reflexivity.
Qed.

Lemma string_of_chars s : string_of_list_ascii (chars s) = s.
Proof. apply string_of_list_ascii_of_string. Qed.

Lemma chars_string_of l : chars (string_of_list_ascii l) = l.
Proof. apply list_ascii_of_string_of_list_ascii. Qed.

Lemma rev_str_involutive s : rev_str (rev_str s) = s.
Proof. unfold rev_str. now rewrite chars_string_of, rev_involutive, string_of_chars. Qed.

Lemma chars_rev_str s : chars (rev_str s) = rev (chars s).
Proof. unfold rev_str. apply chars_string_of. Qed.

Lemma split_on_no c s : ~ In c (chars s) -> split_on c s = [s].
Proof.
  induction s as [|a s IH]; intros H; [reflexivity|]. simpl in *.
  destruct (Ascii.eqb_spec a c) as [->|_]; [tauto|].
  rewrite IH by tauto. reflexivity.
Qed.

Lemma str_append_assoc a b c : (a +++ b) +++ c = a +++ (b +++ c).
Proof. induction a as [|x a IH]; simpl; [reflexivity|]. now rewrite IH. Qed.

Lemma etag_string_tag t n : etag_string t n = dq +++ etag_tag t n +++ dq.
Proof. unfold etag_string, etag_tag. now rewrite !str_append_assoc. Qed.

Lemma chars_etag_tag t n c :
  In c (chars (etag_tag t n)) -> is_digit c = true \/ c = "-"%char.
Proof.
  unfold etag_tag. rewrite !chars_append. intros H.
  apply in_app_or in H as [H|H]; [left; eapply z_to_dec_digits; eauto|].
  simpl in H. destruct H as [<-|H]; [now right|]. left; eapply z_to_dec_digits; eauto.
Qed.

Lemma parse_etag_string t n : parse_etag (etag_string t n) = Some (false, etag_tag t n).
Proof.
  rewrite etag_string_tag. unfold parse_etag, dq. simpl.
  unfold ends_with, drop_last. rewrite rev_str_app_char. simpl.
  rewrite rev_str_involutive.
  replace (forallb etag_char_ok (chars (etag_tag t n))) with true; [reflexivity|].
  symmetry. apply forallb_forall. intros c Hc.
  destruct (chars_etag_tag t n c Hc) as [Hd| ->]; [|reflexivity].
  apply is_digit_range in Hd. unfold etag_char_ok.
  apply orb_true_intro; left. apply orb_true_intro; right.
  apply andb_true_intro; split; apply Nat.leb_le; lia.
Qed.

Lemma string_of_list_app l1 l2 :
  string_of_list_ascii (l1 ++ l2) = string_of_list_ascii l1 +++ string_of_list_ascii l2.
Proof. induction l1 as [|a l IH]; simpl; [reflexivity|]. now rewrite IH. Qed.

Lemma rev_str_cons a s : rev_str (String a s) = rev_str s +++ String a EmptyString.
Proof. unfold rev_str. simpl. now rewrite string_of_list_app. Qed.

Lemma trim_quoted c y :
  c <> "034"%char -> trim_matches c (dq +++ y +++ dq) = dq +++ y +++ dq.
Proof.
  intros Hc. unfold trim_matches, trim_end, dq.
  change (String "034"%char EmptyString +++ y +++ String "034"%char EmptyString) with (String "034"%char (y +++ String "034"%char EmptyString)).
  cbn [trim_start]. destruct (Ascii.eqb_spec "034"%char c) as [H|_]; [congruence|].
  change (String "034"%char (y +++ String "034"%char EmptyString)) with (String "034"%char y +++ String "034"%char EmptyString).
  rewrite rev_str_app_char. cbn [trim_start].
  destruct (Ascii.eqb_spec "034"%char c) as [H|_]; [congruence|].
  rewrite rev_str_cons, rev_str_involutive. reflexivity.
Qed.

Lemma inm_matches_own_etag t n :
  inm_matches_weak (etag_string t n) (etag_string t n) = true.
Proof.
  unfold inm_matches_weak. rewrite parse_etag_string.
  replace (String.eqb (etag_string t n) "*") with false
    by (rewrite etag_string_tag; reflexivity).
  rewrite split_on_no.
  - simpl. unfold trim_ws. rewrite etag_string_tag.
    rewrite !trim_quoted by discriminate.
    rewrite <- etag_string_tag, parse_etag_string, String.eqb_refl. reflexivity.
  - rewrite etag_string_tag, !chars_append. simpl. intros [H|H]; [discriminate|].
    apply in_app_or in H as [H|[H|[]]]; [|discriminate].
    destruct (chars_etag_tag t n _ H) as [H'|H']; [discriminate|discriminate].
Qed.

Lemma extract_cache_headers_some meta t :
  m_mtime meta = Some t ->
  extract_cache_headers meta = Some (etag_string (to_timestamp t) (m_len meta), (t / 1000)%Z).
Proof.
  intros Ht. unfold extract_cache_headers. rewrite Ht, parse_etag_string. reflexivity.
Qed.

Lemma set_content_disposition_other enc r inline f r' k :
  set_content_disposition enc r inline f = Some r' ->
  k <> "content-disposition" -> get_header k r' = get_header k r.
Proof.
  unfold set_content_disposition. intros H Hk.
  destruct (header_value_ok _); [|discriminate]. injection H as <-.
  rewrite get_header_insert. destruct (String.eqb_spec k "content-disposition"); [contradiction|reflexivity].
Qed.

Lemma get_header_default k : get_header k default_response = None.
Proof. reflexivity. Qed.

Ltac hdr_simpl H :=
  repeat (first [ rewrite get_header_set_body in H | rewrite get_header_set_status in H
                | rewrite get_header_insert in H | rewrite get_header_default in H ]);
  simpl in H.

(* ------------------------------------------------------------------ *)
(** * Dispatcher lemmas *)

Lemma no_asset srv req :
  (req_method req <> "GET" \/ handle_assets srv (req_path req) = None) ->
  (if String.eqb (req_method req) "GET" then handle_assets srv (req_path req) else None) = None.
Proof.
  intros [H|H]; destruct (String.eqb_spec (req_method req) "GET"); congruence.
Qed.

Lemma eqb_neq_false s t : s <> t -> String.eqb s t = false.
Proof. apply String.eqb_neq. Qed.

(* ------------------------------------------------------------------ *)
(** * The file system model *)

Lemma path_eqb_spec p q : reflect (p = q) (path_eqb p q).
Proof. unfold path_eqb. destruct (list_eq_dec string_dec p q); constructor; assumption. Qed.

Lemma fs_lookup_remove fs c p :
  fs_lookup (fs_remove fs c) p = if path_eqb p c then None else fs_lookup fs p.
Proof.
  induction fs as [|[q n] fs IH]; simpl.
  - destruct (path_eqb p c); reflexivity.
  - destruct (path_eqb_spec q c) as [->|Hqc]; simpl.
    + rewrite IH. destruct (path_eqb_spec p c); reflexivity.
    + destruct (path_eqb_spec p q) as [->|Hpq].
      * destruct (path_eqb_spec q c); [contradiction|reflexivity].
      * exact IH.
Qed.

Lemma fs_lookup_put fs c n p :
  fs_lookup (fs_put fs c n) p = if path_eqb p c then Some n else fs_lookup fs p.
Proof.
  unfold fs_put. simpl. rewrite fs_lookup_remove.
  destruct (path_eqb p c); reflexivity.
Qed.

(** Rewriting a regular file leaves the resolution of every path as it was. *)
Lemma resolve_put_file fs c n0 n s0 s :
  fs_lookup fs c = Some n0 -> n_kind n0 = KFile s0 -> n_kind n = KFile s ->
  forall fuel done rest, resolve fuel (fs_put fs c n) done rest = resolve fuel fs done rest.
Proof.
  intros Hc Hk0 Hk fuel. induction fuel as [|f IH]; intros done rest; [reflexivity|].
  destruct rest as [|x rest]; [reflexivity|]. cbn [resolve].
  destruct (String.eqb x ".."); [apply IH|].
  rewrite fs_lookup_put. destruct (path_eqb_spec (done ++ [x]) c) as [->|_].
  - rewrite Hc, Hk0, Hk. reflexivity.
  - destruct (fs_lookup fs (done ++ [x])) as [m|]; [|reflexivity].
    destruct (n_kind m); [apply IH|reflexivity|apply IH].
Qed.

Lemma upload_writes_file fs p c n0 s0 body now :
  fs_canon fs p = Some c -> node_at fs c = Some n0 -> n_kind n0 = KFile s0 ->
  file_create fs p body now = Some (fs_put fs c (mkNode (KFile body) now)) /\
  fs_cat (fs_put fs c (mkNode (KFile body) now)) p = Some body.
Proof.
  intros Hp Hn Hk. split.
  - unfold file_create. rewrite Hp, Hn, Hk. reflexivity.
  - destruct c as [|x c]; [cbn [node_at] in Hn; injection Hn as <-; discriminate|].
    cbn [node_at] in Hn.
    assert (Hcan : fs_canon (fs_put fs (x :: c) (mkNode (KFile body) now)) p = fs_canon fs p)
      by (apply (resolve_put_file fs (x :: c) n0 (mkNode (KFile body) now) s0 body Hn Hk eq_refl)).
    unfold fs_cat. rewrite Hcan, Hp. cbn [node_at].
    rewrite fs_lookup_put. destruct (path_eqb_spec (x :: c) (x :: c)); [reflexivity|congruence].
Qed.

Lemma ensure_parent_present fs p now :
  p <> [] -> fs_lstat fs (removelast p) <> None -> ensure_path_parent fs p now = Some fs.
Proof.
  intros Hp Hl. unfold ensure_path_parent, parent.
  destruct p as [|x p]; [contradiction|].
  destruct (fs_lstat fs (removelast (x :: p))); [reflexivity|contradiction].
Qed.

(* ------------------------------------------------------------------ *)
(** * Sorting *)

Lemma option_z_cmp_antisym a b : option_z_cmp b a = CompOpp (option_z_cmp a b).
Proof. destruct a, b; simpl; try reflexivity. apply Z.compare_antisym. Qed.

Lemma pathitem_cmp_antisym a b : pathitem_cmp b a = CompOpp (pathitem_cmp a b).
Proof.
  unfold pathitem_cmp.
  rewrite (Nat.compare_antisym (path_type_rank (path_type a))).
  destruct (Nat.compare (path_type_rank (path_type a)) (path_type_rank (path_type b)));
    simpl; try reflexivity.
  rewrite (String.compare_antisym (name b)).
  destruct (String.compare (name a) (name b)); simpl; try reflexivity.
  rewrite (Z.compare_antisym (mtime a)).
  destruct (Z.compare (mtime a) (mtime b)); simpl; try reflexivity.
  apply option_z_cmp_antisym.
Qed.

Lemma pathitem_le_gt a b : pathitem_cmp a b = Gt -> pathitem_le b a.
Proof. unfold pathitem_le. intros E. rewrite (pathitem_cmp_antisym a b), E. discriminate. Qed.

Lemma insert_by_sorted x l :
  Sorted pathitem_le l -> Sorted pathitem_le (insert_by pathitem_cmp x l).
Proof.
  induction 1 as [|y l Hs IH Hhd]; simpl.
  - constructor; constructor.
  - destruct (pathitem_cmp x y) eqn:E.
    + constructor; [constructor; assumption|constructor; unfold pathitem_le; congruence].
    + constructor; [constructor; assumption|constructor; unfold pathitem_le; congruence].
    + constructor; [exact IH|].
      destruct l as [|z l]; simpl.
      * constructor. apply pathitem_le_gt. exact E.
      * inversion Hhd; subst.
        destruct (pathitem_cmp x z); constructor; try assumption; apply pathitem_le_gt; exact E.
Qed.

Lemma insert_by_perm x l : Permutation (x :: l) (insert_by pathitem_cmp x l).
Proof.
  induction l as [|y l IH]; simpl; [reflexivity|].
  destruct (pathitem_cmp x y); try reflexivity.
  eapply perm_trans; [apply perm_swap|]. constructor. exact IH.
Qed.

Lemma sort_by_sorted l : Sorted pathitem_le (sort_by pathitem_cmp l).
Proof. induction l as [|x l IH]; simpl; [constructor|]. apply insert_by_sorted, IH. Qed.

Lemma sort_by_perm l : Permutation l (sort_by pathitem_cmp l).
Proof.
  induction l as [|x l IH]; simpl; [reflexivity|].
  eapply perm_trans; [constructor; exact IH|]. apply insert_by_perm.
Qed.

(* ------------------------------------------------------------------ *)
(** * The claims *)

(** C1: a GET of the 10-byte file [/srv/a.txt] with [Range: bytes=10-20]:
    the start lies at the end of the file, the end is present and not below
    the start, so the code answers 206 with [Content-Range: bytes 10-9/10]
    and [Content-Length: 0] (the [u64] subtraction [end - start + 1] wraps
    to 0 in a release build), not 416 with [bytes */10]. *)
Theorem C1_range_at_end_answers_206 :
  let res := handle_send_file ex_content_type ex_http_date ex_view ["srv"; "a.txt"]
               (range_hdrs "bytes=10-20") false in
  status_of_result res = 206%Z /\
  option_map (get_header "content-range") res = Some (Some "bytes 10-9/10") /\
  option_map (get_header "content-length") res = Some (Some "0").
Proof. vm_compute. split; [reflexivity|split; reflexivity]. Qed.

Lemma header_value_ok_ctl s c :
  In c (chars s) -> ((byte_of c < 32 /\ byte_of c <> 9) \/ byte_of c = 127)%nat ->
  header_value_ok s = false.
Proof.
  intros Hin Hc. unfold header_value_ok.
  destruct (forallb _ (chars s)) eqn:E; [|reflexivity].
  rewrite forallb_forall in E. specialize (E c Hin).
  apply orb_true_iff in E as [E|E].
  - apply andb_true_iff in E as [E1 E2]. apply Nat.leb_le in E1.
    apply negb_true_iff, Nat.eqb_neq in E2. lia.
  - apply Nat.eqb_eq in E. lia.
Qed.

Lemma header_value_ok_no_ctl s :
  (forall c, In c (chars s) -> ~ ((byte_of c < 32 /\ byte_of c <> 9) \/ byte_of c = 127)%nat) ->
  header_value_ok s = true.
Proof.
  intros H. unfold header_value_ok. apply forallb_forall. intros c Hin.
  specialize (H c Hin).
  destruct (Nat.eqb_spec (byte_of c) 9); [apply orb_true_r|].
  rewrite orb_false_r. apply andb_true_iff. split.
  - apply Nat.leb_le. lia.
  - apply negb_true_iff, Nat.eqb_neq. lia.
Qed.

Lemma set_content_disposition_none res inline filename :
  header_value_ok filename = false ->
  set_content_disposition encode_uri res inline filename = None.
Proof.
  intros Hf. unfold set_content_disposition.
  destruct (is_ascii filename), inline;
    rewrite ?header_value_ok_app, ?Hf, ?header_value_ok_encode_uri; simpl; reflexivity.
Qed.

(** C2 (as the code has it): for an existing file of [size < 2^63] bytes
    whose sniffed content type is a valid header value, a GET with
    [Range: bytes=s-e], where [s <= e < 2^64] and [s < size], without
    If-None-Match or If-Modified-Since and with no failing If-Range,
    answers 206 with [Content-Range: bytes s-e'/size],
    [Content-Length: e'-s+1] and exactly the bytes [s..=e'] of the file,
    [e'] being [e] capped at [size-1], when the file name holds no control
    character other than a tab; when the name holds one (a byte below 32
    other than 9, or 127), the Content-Disposition value is not a valid
    header value and the request fails (500). *)
Theorem C2_range_roundtrip get_content_type fmt_http_date view p hdrs content meta
    filename s e :
  fs_read view p = Some content ->
  fs_metadata view p = Some meta ->
  m_len meta = Z.of_nat (String.length content) ->
  (m_len meta < 2 ^ 63)%Z ->
  try_get_file_name p = Some filename ->
  header_value_ok (get_content_type p (substring 0 1024 content)) = true ->
  h_range hdrs = Some ("bytes=" +++ z_to_dec s +++ "-" +++ z_to_dec e) ->
  h_if_none_match hdrs = None ->
  h_if_modified_since hdrs = None ->
  if_range_passes hdrs meta = true ->
  (0 <= s <= e)%Z -> (e < 2 ^ 64)%Z -> (s < m_len meta)%Z ->
  let size := m_len meta in
  let endv := Z.min e (size - 1) in
  ((forall c, In c (chars filename) ->
      ~ ((byte_of c < 32 /\ byte_of c <> 9) \/ byte_of c = 127)%nat) ->
   exists res,
    handle_send_file get_content_type fmt_http_date view p hdrs false = Some res /\
    r_status res = 206%Z /\
    get_header "content-range" res
      = Some ("bytes " +++ z_to_dec s +++ "-" +++ z_to_dec endv +++ "/" +++ z_to_dec size) /\
    get_header "content-length" res = Some (z_to_dec (endv - s + 1)) /\
    r_body res = BStream (substring (Z.to_nat s) (Z.to_nat (endv - s + 1)) content)) /\
  ((exists c, In c (chars filename) /\
      ((byte_of c < 32 /\ byte_of c <> 9) \/ byte_of c = 127)%nat) ->
   status_of_result (handle_send_file get_content_type fmt_http_date view p hdrs false)
     = 500%Z).
Proof.
  intros Hread Hmeta Hlen Hbig Hname Hct Hr Hinm Hims Hir Hse He Hs size endv. split.
  - intros Hok. pose proof (header_value_ok_no_ctl filename Hok) as Hnameok.
    assert (Hpr : parse_range hdrs = Some (mkRange s (Some e))) by (apply parse_range_dec; auto; lia).
    pose proof (range_header_typed_dec hdrs s e Hr) as Htyped.
    unfold handle_send_file. rewrite Hread, Hmeta.
    assert (Hw1 : wrap64 (m_len meta - 1) = (m_len meta - 1)%Z).
    { unfold wrap64, u64_max_plus_one. apply Z.mod_small. lia. }
    assert (Hw2 : wrap64 (wrap64 (endv - s) + 1) = (endv - s + 1)%Z).
    { unfold wrap64, u64_max_plus_one, endv, size.
      rewrite (Z.mod_small (Z.min e (m_len meta - 1) - s)) by lia. apply Z.mod_small. lia. }
    assert (Hsat : ((s <=? e)%Z && seek_ok s) = true).
    { unfold seek_ok. apply andb_true_intro; split; apply Z.leb_le; lia. }
    destruct (set_content_disposition_some
                (insert_header "content-type" (get_content_type p (substring 0 1024 content))
                   (match extract_cache_headers meta with
                    | Some (etag, last_modified) =>
                        insert_header "etag" etag
                          (insert_header "last-modified" (fmt_http_date last_modified)
                             default_response)
                    | None => default_response
                    end)) true filename Hnameok) as [v Hv].
    destruct (extract_cache_headers meta) as [[etag lm]|] eqn:Hc;
      rewrite ?Hinm, ?Hims; cbv beta iota zeta.
    + rewrite Htyped. unfold if_range_passes in Hir. rewrite Hc in Hir.
      assert (Hu : match h_if_range hdrs with
                   | Some ir => negb (if_range_is_modified ir etag lm)
                   | None => true
                   end = true) by (destruct (h_if_range hdrs); assumption).
      rewrite Hu, Hpr, Hct, Hname. cbv beta iota zeta. rewrite Hv.
      cbn [start end_]. rewrite Hsat, Hw1. fold size endv. rewrite Hw2.
      eexists; split; [reflexivity|].
      split; [reflexivity|].
      rewrite get_header_set_body, !get_header_insert.
      split; [reflexivity|]. split; reflexivity.
    + rewrite Hpr, Hct, Hname. cbv beta iota zeta. rewrite Hv.
      cbn [start end_]. rewrite Hsat, Hw1. fold size endv. rewrite Hw2.
      eexists; split; [reflexivity|].
      split; [reflexivity|].
      rewrite get_header_set_body, !get_header_insert.
      split; [reflexivity|]. split; reflexivity.
  - intros (c & Hin & Hc). pose proof (header_value_ok_ctl filename c Hin Hc) as Hbad.
    unfold handle_send_file. rewrite Hread, Hmeta.
    destruct (extract_cache_headers meta) as [[etag lm]|];
      rewrite ?Hinm, ?Hims; cbv beta iota zeta;
      rewrite Hct, Hname; cbv beta iota zeta;
      rewrite set_content_disposition_none by exact Hbad; reflexivity.
Qed.

(** C2: the ranged GET of [/srv/a.txt] with [bytes=2-4] answers 206 with
    [bytes 2-4/10] and the bytes [234]; the same GET of [/srv/a\nb] with
    [bytes=0-1] fails with 500. *)
Lemma C2_range_roundtrip_witness :
  (exists res,
    handle_send_file ex_content_type ex_http_date ex_view ["srv"; "a.txt"]
      (range_hdrs ("bytes=" +++ z_to_dec 2 +++ "-" +++ z_to_dec 4)) false = Some res /\
    r_status res = 206%Z /\
    get_header "content-range" res
      = Some ("bytes " +++ z_to_dec 2 +++ "-" +++ z_to_dec (Z.min 4 (10 - 1)) +++ "/"
              +++ z_to_dec 10) /\
    get_header "content-length" res = Some (z_to_dec (Z.min 4 (10 - 1) - 2 + 1)) /\
    r_body res = BStream (substring (Z.to_nat 2) (Z.to_nat (Z.min 4 (10 - 1) - 2 + 1))
                            "0123456789")) /\
  status_of_result
    (handle_send_file ex_content_type ex_http_date (view_of ex_fs_nl) ["srv"; nl_name]
       (range_hdrs ("bytes=" +++ z_to_dec 0 +++ "-" +++ z_to_dec 1)) false) = 500%Z.
Proof.
  split.
  - refine (proj1 (C2_range_roundtrip ex_content_type ex_http_date ex_view ["srv"; "a.txt"]
             (range_hdrs ("bytes=" +++ z_to_dec 2 +++ "-" +++ z_to_dec 4))
             "0123456789" (mkMeta false true false 10 (Some 1700000000000%Z)) "a.txt" 2 4
             eq_refl eq_refl eq_refl ltac:(vm_compute; reflexivity) eq_refl
             eq_refl eq_refl eq_refl eq_refl eq_refl ltac:(lia) ltac:(vm_compute; reflexivity)
             ltac:(vm_compute; reflexivity)) _).
    intros c Hin. simpl in Hin.
    repeat (destruct Hin as [<-|Hin]; [vm_compute; lia|]). destruct Hin.
  - refine (proj2 (C2_range_roundtrip ex_content_type ex_http_date (view_of ex_fs_nl)
             ["srv"; nl_name]
             (range_hdrs ("bytes=" +++ z_to_dec 0 +++ "-" +++ z_to_dec 1))
             "0123456789" (mkMeta false true false 10 (Some 1000%Z)) nl_name 0 1
             eq_refl eq_refl eq_refl ltac:(vm_compute; reflexivity) eq_refl
             eq_refl eq_refl eq_refl eq_refl eq_refl ltac:(lia) ltac:(vm_compute; reflexivity)
             ltac:(vm_compute; reflexivity)) _).
    exists "010"%char. split; [vm_compute; tauto|vm_compute; lia].
Defined.

(** C2, counterexample: [/srv/a\nb] holds 10 bytes; a GET with
    [Range: bytes=0-1] fails with 500, because the Content-Disposition value
    carrying the name is not a valid header value. *)
Lemma C2_newline_name_500 :
  status_of_result
    (handle_send_file ex_content_type ex_http_date (view_of ex_fs_nl) ["srv"; nl_name]
       (range_hdrs "bytes=0-1") false) = 500%Z.
Proof. vm_compute. reflexivity. Qed.


Lemma path_strip_prefix_app p r : path_strip_prefix (p ++ r) p = Some r.
Proof. induction p as [|x p IH]; simpl; [destruct r; reflexivity|]. rewrite String.eqb_refl. exact IH. Qed.



Lemma fs_lookup_none_in fs q n : fs_lookup fs q = None -> ~ In (q, n) fs.
Proof.
  induction fs as [|[k v] fs IH]; simpl; [tauto|].
  destruct (path_eqb_spec q k) as [->|Hne]; [discriminate|].
  intros H [E|E]; [injection E as -> _; apply Hne; reflexivity|exact (IH H E)].
Qed.








(** C4, counterexample: PROPFIND of [/srv] with [Depth: 2] is not refused;
    it answers 207 with the directory and its visible children. *)
Lemma C4_depth_two_lists_children :
  let srv := ex_server ["srv"] false true true false [] allow_all in
  option_map r_status
    (handle_propfind_dir srv ex_view ["srv"] (depth_hdrs "2") (access_paths_new ReadWrite))
    = Some 207%Z /\
  option_map (fun r => match r_body r with BMultistatus l => length l | _ => 0%nat end)
    (handle_propfind_dir srv ex_view ["srv"] (depth_hdrs "2") (access_paths_new ReadWrite))
    = Some 5%nat.
Proof. vm_compute. split; reflexivity. Qed.

(** C4 (as the code has it): for a directory whose item and listing are
    available, PROPFIND answers the directory alone for [Depth: 0], the
    directory and its listed children when Depth is absent or any other
    [u32] (for example 2), and 400 with an empty body when the value does
    not parse as a [u32] (for example [infinity]). *)
Theorem C4_depth_parsed_as_u32 srv view p hdrs ap item child :
  to_pathitem srv view p (root_path (args srv)) = Some (Some item) ->
  list_dir srv view p (root_path (args srv)) ap = Some child ->
  let res := handle_propfind_dir srv view p hdrs ap in
  (h_depth hdrs = None -> res = Some (res_multistatus (item :: child) default_response)) /\
  (h_depth hdrs = Some "0" -> res = Some (res_multistatus [item] default_response)) /\
  (forall v d, h_depth hdrs = Some v -> header_to_str_ok v = true ->
     parse_uint 32 v = Some d -> d <> 0%Z ->
     res = Some (res_multistatus (item :: child) default_response)) /\
  (forall v, h_depth hdrs = Some v -> parse_uint 32 v = None ->
     res = Some (mkResponse 400 [] BEmpty)).
Proof.
  intros Hi Hl res. unfold res, handle_propfind_dir, parse_depth.
  repeat split.
  - intros ->. rewrite Hi. simpl. rewrite Hl. reflexivity.
  - intros ->. rewrite Hi. reflexivity.
  - intros v d -> Hv Hd Hd0. rewrite Hv, Hd, Hi.
    replace (negb (d =? 0)%Z) with true by (symmetry; apply negb_true_iff, Z.eqb_neq, Hd0).
    rewrite Hl. reflexivity.
  - intros v -> Hv. rewrite Hv. destruct (header_to_str_ok v); reflexivity.
Qed.

(** PROPFIND of [/srv] with [Depth: 2]. *)
Lemma C4_depth_parsed_as_u32_witness :
  let srv := ex_server ["srv"] false true true false ["foo/"] allow_all in
  exists item child,
    to_pathitem srv ex_view ["srv"] ["srv"] = Some (Some item) /\
    list_dir srv ex_view ["srv"] ["srv"] (access_paths_new ReadWrite) = Some child /\
    handle_propfind_dir srv ex_view ["srv"] (depth_hdrs "2") (access_paths_new ReadWrite)
      = Some (res_multistatus (item :: child) default_response).
Proof.
  intros srv.
  set (item := mkPathItem Dir "" 1000 None).
  set (child := [mkPathItem File "a.txt" 1700000000000 (Some 10%Z);
                 mkPathItem Dir "d" 1000 None; mkPathItem Dir "real" 1000 None]).
  assert (Hi : to_pathitem srv ex_view ["srv"] (root_path (args srv)) = Some (Some item))
    by (vm_compute; reflexivity).
  assert (Hl : list_dir srv ex_view ["srv"] (root_path (args srv)) (access_paths_new ReadWrite)
               = Some child) by (vm_compute; reflexivity).
  exists item, child. split; [exact Hi|]. split; [exact Hl|].
  refine (proj1 (proj2 (proj2 (C4_depth_parsed_as_u32 srv ex_view ["srv"] (depth_hdrs "2")
           (access_paths_new ReadWrite) item child Hi Hl)))
           "2" 2%Z eq_refl eq_refl eq_refl _).
  all: first [vm_compute; reflexivity | discriminate | vm_compute; discriminate | lia].
Defined.

(** C5, counterexample: without [sort], a file [a] and a directory [b] are
    listed directory first. *)
Lemma C5_directory_before_file :
  let srv := ex_server ["srv"] false true true false [] allow_all in
  option_map r_body
    (send_index ex_compare_str srv ["srv"]
       [mkPathItem File "a" 0 (Some 1%Z); mkPathItem Dir "b" 0 None] true [] false None)
  = Some (BIndex [mkPathItem Dir "b" 0 None; mkPathItem File "a" 0 (Some 1%Z)]).
Proof. vm_compute. reflexivity. Qed.

(** C5 (as the code has it): without a [sort] parameter, the listing
    holds exactly the given entries, each consecutive pair in the derived
    order of [PathItem]: kind first (Dir, SymlinkDir, File, SymlinkFile),
    then name by bytes, then mtime, then size; with [simple] it is the text
    list of these entries in that order (for GET and HEAD alike), otherwise
    the page of these entries (no body for HEAD). *)
Theorem C5_default_order_is_derived compare_str srv p paths exist q head_only user :
  query_get q "sort" = None ->
  (query_contains q "simple" = true \/ path_strip_prefix p (root_path (args srv)) <> None) ->
  exists res l,
    send_index compare_str srv p paths exist q head_only user = Some res /\
    Sorted pathitem_le l /\ Permutation paths l /\
    r_body res = (if query_contains q "simple" then BText (lines_of l)
                  else if head_only then BEmpty else BIndex l).
Proof.
  intros Hs Hp. unfold send_index. rewrite Hs.
  destruct (query_contains q "simple").
  - eexists; exists (sort_by pathitem_cmp paths). split; [reflexivity|].
    split; [apply sort_by_sorted|]. split; [apply sort_by_perm|reflexivity].
  - destruct Hp as [Hp|Hp]; [discriminate|].
    destruct (path_strip_prefix p (root_path (args srv))) as [r|]; [|contradiction].
    destruct head_only; eexists; exists (sort_by pathitem_cmp paths);
      (split; [reflexivity|]); (split; [apply sort_by_sorted|]);
      (split; [apply sort_by_perm|reflexivity]).
Qed.

(** The simple text listing of the two entries of the counterexample. *)
Lemma C5_default_order_is_derived_witness :
  let srv := ex_server ["srv"] false true true false [] allow_all in
  exists res l,
    send_index ex_compare_str srv ["srv"]
      [mkPathItem File "a" 0 (Some 1%Z); mkPathItem Dir "b" 0 None] true [("simple", "")] false None
      = Some res /\
    Sorted pathitem_le l /\
    Permutation [mkPathItem File "a" 0 (Some 1%Z); mkPathItem Dir "b" 0 None] l /\
    r_body res = (if query_contains [("simple", "")] "simple" then BText (lines_of l)
                  else if false then BEmpty else BIndex l).
Proof.
  intros srv.
  refine (C5_default_order_is_derived ex_compare_str srv ["srv"]
           [mkPathItem File "a" 0 (Some 1%Z); mkPathItem Dir "b" 0 None] true [("simple", "")]
           false None _ _).
  - vm_compute. reflexivity.
  - left. vm_compute. reflexivity.
Defined.

(** C6: every ETag emitted for a file is [etag_string] of its modification
    time in milliseconds and its size, the quoted text <mtime>-<size>; a GET
    carrying that ETag in If-None-Match answers 304 with an empty body; while
    If-None-Match is present the answer does not depend on
    If-Modified-Since; without it, an If-Modified-Since not before the
    modification time answers 304. *)
Theorem C6_etag_and_not_modified get_content_type fmt_http_date view p :
  (forall hdrs head_only res v,
     handle_send_file get_content_type fmt_http_date view p hdrs head_only = Some res ->
     get_header "etag" res = Some v ->
     exists meta t, fs_metadata view p = Some meta /\ m_mtime meta = Some t /\
                    v = etag_string (to_timestamp t) (m_len meta)) /\
  (forall hdrs head_only content meta t,
     fs_read view p = Some content -> fs_metadata view p = Some meta -> m_mtime meta = Some t ->
     h_if_none_match hdrs = Some (etag_string (to_timestamp t) (m_len meta)) ->
     handle_send_file get_content_type fmt_http_date view p hdrs head_only
       = Some (mkResponse 304 [] BEmpty)) /\
  (forall hdrs head_only ims,
     h_if_none_match hdrs <> None ->
     handle_send_file get_content_type fmt_http_date view p (with_ims hdrs ims) head_only
       = handle_send_file get_content_type fmt_http_date view p hdrs head_only) /\
  (forall hdrs head_only content meta t since,
     fs_read view p = Some content -> fs_metadata view p = Some meta -> m_mtime meta = Some t ->
     h_if_none_match hdrs = None -> h_if_modified_since hdrs = Some since ->
     (t / 1000 <= since)%Z ->
     handle_send_file get_content_type fmt_http_date view p hdrs head_only
       = Some (mkResponse 304 [] BEmpty)).
Proof.
  split; [|split; [|split]].
  - intros hdrs head_only res v H Hg. unfold handle_send_file in H.
    destruct (fs_read view p) as [c|]; [|discriminate].
    destruct (fs_metadata view p) as [meta|]; [|discriminate].
    exists meta.
    destruct (m_mtime meta) as [t|] eqn:Ht.
    + exists t. split; [reflexivity|]. split; [reflexivity|].
      rewrite (extract_cache_headers_some _ _ Ht) in H. cbv beta iota zeta in H.
      repeat (match type of H with
              | context [match ?x with _ => _ end] => destruct x eqn:?
              end; cbv beta iota zeta in H);
        try discriminate; injection H as <-; hdr_simpl Hg;
        repeat match goal with
               | E : set_content_disposition _ _ _ _ = Some _ |- _ =>
                   rewrite (set_content_disposition_other _ _ _ _ _ "etag" E) in Hg
                     by discriminate; clear E
               end; hdr_simpl Hg;
        first [discriminate Hg | injection Hg as <-; reflexivity].
    + unfold extract_cache_headers in H. rewrite Ht in H. cbv beta iota zeta in H.
      exfalso.
      repeat (match type of H with
              | context [match ?x with _ => _ end] => destruct x eqn:?
              end; cbv beta iota zeta in H);
        try discriminate; injection H as <-; hdr_simpl Hg;
        repeat match goal with
               | E : set_content_disposition _ _ _ _ = Some _ |- _ =>
                   rewrite (set_content_disposition_other _ _ _ _ _ "etag" E) in Hg
                     by discriminate; clear E
               end; hdr_simpl Hg;
        first [discriminate Hg | injection Hg as <-; reflexivity].
  - intros hdrs head_only content meta t Hr Hm Ht Hinm.
    unfold handle_send_file. rewrite Hr, Hm, (extract_cache_headers_some _ _ Ht), Hinm.
    unfold precondition_passes. rewrite inm_matches_own_etag. reflexivity.
  - intros hdrs head_only ims Hinm. unfold handle_send_file.
    change (parse_range (with_ims hdrs ims)) with (parse_range hdrs).
    change (range_header_typed (with_ims hdrs ims)) with (range_header_typed hdrs).
    change (h_if_range (with_ims hdrs ims)) with (h_if_range hdrs).
    change (h_if_none_match (with_ims hdrs ims)) with (h_if_none_match hdrs).
    destruct (h_if_none_match hdrs) as [x|] eqn:E; [|contradiction].
    reflexivity.
  - intros hdrs head_only content meta t since Hr Hm Ht Hinm Hims Hle.
    unfold handle_send_file. rewrite Hr, Hm, (extract_cache_headers_some _ _ Ht), Hinm, Hims.
    unfold ims_is_modified. replace (since <? t / 1000)%Z with false
      by (symmetry; apply Z.ltb_ge; lia). reflexivity.
Qed.

(** C6: a GET of [/srv/a.txt] carrying the ETag of the file in
    If-None-Match answers 304 with an empty body. *)
Lemma C6_etag_and_not_modified_witness :
  handle_send_file ex_content_type ex_http_date ex_view ["srv"; "a.txt"]
    (inm_hdrs (etag_string (to_timestamp 1700000000000) 10)) false
  = Some (mkResponse 304 [] BEmpty).
Proof.
  exact (proj1 (proj2 (C6_etag_and_not_modified ex_content_type ex_http_date ex_view
                         ["srv"; "a.txt"]))
           (inm_hdrs (etag_string (to_timestamp 1700000000000) 10)) false "0123456789"
           (mkMeta false true false 10 (Some 1700000000000%Z)) 1700000000000%Z
           eq_refl eq_refl eq_refl eq_refl).
Defined.

(** C7: with [hidden = [foo/]] and [/srv/foo] a symbolic link to the
    directory [/srv/real], the listing and PROPFIND classify [foo] as a
    directory and hide it, while search classifies it by [symlink_metadata]
    (not a directory), so the directory-only pattern does not apply and
    [?q=foo] returns [foo]. *)
Theorem C7_symlinked_dir_hidden_in_listing_not_in_search :
  let srv := ex_server ["srv"] false true true false ["foo/"] allow_all in
  let ap := access_paths_new ReadWrite in
  is_hidden ["foo/"] false "foo" true = true /\
  is_hidden ["foo/"] false "foo" false = false /\
  option_map r_body (handle_ls_dir ex_compare_str srv ex_view ["srv"] true [] false None ap)
    = Some (BIndex [mkPathItem Dir "d" 1000 None; mkPathItem Dir "real" 1000 None;
                    mkPathItem File "a.txt" 1700000000000 (Some 10%Z)]) /\
  option_map r_body (handle_propfind_dir srv ex_view ["srv"] no_headers ap)
    = Some (BMultistatus [mkPathItem Dir "" 1000 None;
                          mkPathItem File "a.txt" 1700000000000 (Some 10%Z);
                          mkPathItem Dir "d" 1000 None; mkPathItem Dir "real" 1000 None]) /\
  option_map r_body
    (handle_search_dir ex_compare_str srv ex_fs ["srv"] [("q", "foo")] false None ap)
    = Some (BIndex [mkPathItem SymlinkDir "foo" 1000 None]).
Proof. vm_compute. repeat split. Qed.

(** C8, counterexample: with upload allowed, PUT onto the directory [/d]
    is dispatched to the upload, which cannot create the file and answers
    403, leaving the tree unchanged. *)
Lemma C8_put_onto_directory_403 :
  let srv := ex_server ["srv"] false true true false [] allow_all in
  let req := mkRequest "PUT" "/d" [] no_headers "hi" in
  handle srv ex_view req = ActUpload ["srv"; "d"] /\
  handle_upload ex_fs ["srv"; "d"] req 5 = (ex_fs, Some status_forbid).
Proof. vm_compute. split; reflexivity. Qed.

(** C8 (as the code has it): a PUT that reaches the method table answers
    404 when symbolic links are disallowed and its existing target resolves
    outside the root; otherwise 403 when upload is disabled or the target is
    an existing non-empty file while delete is disabled, and it goes to the
    upload in every other case, a missing target included.  The upload (with
    the parent present) answers 403 and changes nothing when the target
    resolves to a directory, and 201 with the body written when it resolves
    to a regular file, empty or not. *)
Theorem C8_put_forbidden_cases srv view req rel user ap :
  req_method req = "PUT" ->
  resolve_path srv (req_path req) = Some rel ->
  auth_guard (args srv) rel (req_method req) (h_authorization (req_headers req))
    = (user, Some ap) ->
  path_is_file (args srv) = false ->
  handle srv view req =
    (if negb (allow_symlink (args srv))
        && match fs_metadata view (join_path srv rel) with Some _ => true | None => false end
        && negb (is_root_contained srv view (join_path srv rel))
     then ActNotFound
     else if negb (allow_upload (args srv))
        || (negb (allow_delete (args srv))
            && match fs_metadata view (join_path srv rel) with
               | Some m => m_is_file m && (0 <? m_len m)%Z
               | None => false
               end)
     then ActForbid else ActUpload (join_path srv rel)) /\
  (forall fs p c n now,
     p <> [] -> fs_lstat fs (removelast p) <> None ->
     fs_canon fs p = Some c -> node_at fs c = Some n ->
     (n_kind n = KDir -> handle_upload fs p req now = (fs, Some status_forbid)) /\
     (forall s0, n_kind n = KFile s0 ->
        exists fs', handle_upload fs p req now = (fs', Some (mkResponse 201 [] BEmpty)) /\
                    fs_cat fs' p = Some (req_body req))).
Proof.
  intros Hmeth Hr Hg Hf. split.
  - unfold handle. cbv zeta. rewrite Hmeth in *. cbn -[handle_assets resolve_path join_path].
    rewrite Hr, Hg, Hf.
    destruct (fs_metadata view (join_path srv rel)) as [m|]; cbv beta iota;
      destruct user, (allow_symlink (args srv)), (is_root_contained srv view (join_path srv rel)),
        (allow_upload (args srv)), (allow_delete (args srv)); try reflexivity;
      destruct (m_is_file m), (0 <? m_len m)%Z; reflexivity.
  - intros fs p c n now Hp Hl Hcan Hn. split.
    + intros Hk. unfold handle_upload. rewrite (ensure_parent_present fs p now Hp Hl).
      unfold file_create. rewrite Hcan, Hn, Hk. reflexivity.
    + intros s0 Hk. destruct (upload_writes_file fs p c n s0 (req_body req) now Hcan Hn Hk)
        as [Hw Hcat].
      eexists. split; [|exact Hcat].
      unfold handle_upload. rewrite (ensure_parent_present fs p now Hp Hl), Hw. reflexivity.
Qed.

(** PUT of the new file [/new.txt] with upload and delete allowed and
    symbolic links disallowed goes to the upload. *)
Lemma C8_put_forbidden_cases_witness :
  let srv := ex_server ["srv"] false true true false [] allow_all in
  let req := mkRequest "PUT" "/new.txt" [] no_headers "hi" in
  handle srv ex_view req = ActUpload (join_path srv "new.txt").
Proof.
  intros srv req.
  refine (eq_trans (proj1 (C8_put_forbidden_cases srv ex_view req "new.txt" None
                             (access_paths_new ReadWrite) eq_refl _ eq_refl eq_refl)) _).
  all: vm_compute; reflexivity.
Defined.

(** C9, counterexample: a guard that identifies the user but grants no
    access answers 403 for [/esc/secret], whose canonical path [/out/secret]
    lies outside the root, before the containment check. *)
Lemma C9_guard_denial_is_403 :
  let srv := ex_server ["srv"] false true true false [] deny_guest in
  fs_stat ex_fs ["srv"; "esc"; "secret"] <> None /\
  is_root_contained srv ex_view ["srv"; "esc"; "secret"] = false /\
  handle srv ex_view (mkRequest "GET" "/esc/secret" [] no_headers "") = ActForbid.
Proof. vm_compute. split; [discriminate|split; reflexivity]. Qed.

(** C9 (as the code has it): with symbolic links disallowed, a request
    that reaches the file system stage (not an asset GET, its path resolves,
    the guard grants an access view, not WRITEABLE, not single-file mode)
    whose target exists but is not contained in the root is answered 404 and
    no handler runs; a listing leaves out a symbolic link entry that is not
    contained in the root. *)
Theorem C9_escaping_target_not_found srv view :
  allow_symlink (args srv) = false ->
  (forall req rel user ap m,
     (req_method req <> "GET" \/ handle_assets srv (req_path req) = None) ->
     resolve_path srv (req_path req) = Some rel ->
     auth_guard (args srv) rel (req_method req) (h_authorization (req_headers req))
       = (user, Some ap) ->
     req_method req <> "WRITEABLE" ->
     path_is_file (args srv) = false ->
     fs_metadata view (join_path srv rel) = Some m ->
     is_root_contained srv view (join_path srv rel) = false ->
     handle srv view req = ActNotFound) /\
  (forall paths base entry m m2,
     fs_metadata view entry = Some m -> fs_symlink_metadata view entry = Some m2 ->
     m_is_symlink m2 = true -> is_root_contained srv view entry = false ->
     add_pathitem srv view paths base entry = paths).
Proof.
  intros Hs. split.
  - intros req rel user ap m Ha Hr Hg Hw Hf Hm Hc.
    unfold handle. cbv zeta. rewrite (no_asset srv req Ha), Hr, Hg, (eqb_neq_false _ _ Hw), Hf, Hm.
    cbv beta iota. rewrite Hs, Hc. destruct user; reflexivity.
  - intros paths base entry m m2 Hm Hm2 Hl Hc.
    unfold add_pathitem, to_pathitem. rewrite Hm, Hm2, Hs, Hl, Hc. reflexivity.
Qed.

(** GET of [/esc/secret] with the permissive guard. *)
Lemma C9_escaping_target_not_found_witness :
  let srv := ex_server ["srv"] false true true false [] allow_all in
  handle srv ex_view (mkRequest "GET" "/esc/secret" [] no_headers "") = ActNotFound.
Proof.
  intros srv.
  refine (proj1 (C9_escaping_target_not_found srv ex_view eq_refl)
           (mkRequest "GET" "/esc/secret" [] no_headers "") "esc/secret" None
           (access_paths_new ReadWrite) (mkMeta false true false 1 (Some 1000%Z))
           (or_intror _) _ eq_refl
           _ eq_refl _
           _).
  all: first [vm_compute; reflexivity | discriminate | vm_compute; discriminate | lia].
Defined.

(** C10, counterexample: in single-file mode, with a guard that admits
    everyone, a GET of [/__dufs_v0.43.0_index.js] (not one of the three
    canonical paths) is served from the asset bundle with 200. *)
Lemma C10_asset_served_in_single_file_mode :
  let srv := ex_server ["srv"; "a.txt"] true true true false [] allow_all in
  let req := mkRequest "GET" "/__dufs_v0.43.0_index.js" [] no_headers "" in
  existsb (fun v => String.eqb v (req_path req)) (single_file_req_paths srv) = false /\
  handle srv ex_view req = ActAsset "index.js" /\
  r_status (embedded_asset_response "index.js") = 200%Z.
Proof. vm_compute. repeat split. Qed.

(** C10 (as the code has it): in single-file mode, a request that is not a
    GET of an asset path, whose path resolves, that the guard grants, and
    whose method is not WRITEABLE, sends the served file (HEAD without body)
    when its path is one of the canonical paths, whatever the method, and is
    answered 404 otherwise. *)
Theorem C10_single_file_dispatch srv view req rel user ap :
  path_is_file (args srv) = true ->
  (req_method req <> "GET" \/ handle_assets srv (req_path req) = None) ->
  resolve_path srv (req_path req) = Some rel ->
  auth_guard (args srv) rel (req_method req) (h_authorization (req_headers req))
    = (user, Some ap) ->
  req_method req <> "WRITEABLE" ->
  handle srv view req =
    if existsb (fun v => String.eqb v (req_path req)) (single_file_req_paths srv)
    then ActSendFile (root_path (args srv)) (String.eqb (req_method req) "HEAD")
    else ActNotFound.
Proof.
  intros Hf Ha Hr Hg Hw. unfold handle. cbv zeta.
  rewrite (no_asset srv req Ha), Hr, Hg, (eqb_neq_false _ _ Hw), Hf. destruct user; reflexivity.
Qed.

(** PUT of [/a.txt] in single-file mode sends the file. *)
Lemma C10_single_file_dispatch_witness :
  let srv := ex_server ["srv"; "a.txt"] true true true false [] allow_all in
  handle srv ex_view (mkRequest "PUT" "/a.txt" [] no_headers "")
  = ActSendFile ["srv"; "a.txt"] false.
Proof.
  intros srv.
  refine (C10_single_file_dispatch srv ex_view (mkRequest "PUT" "/a.txt" [] no_headers "")
           "a.txt" None (access_paths_new ReadWrite) eq_refl (or_introl _)
           _ eq_refl _).
  all: first [vm_compute; reflexivity | discriminate | vm_compute; discriminate | lia].
Defined.

(* ================================================================== *)
(** * Further properties of the server *)




Lemma create_dir_all_aux_spec rest : forall fs done now fs',
  create_dir_all_aux fs done rest now = Some fs' ->
  (forall q, fs_lookup fs' q = fs_lookup fs q \/
     (fs_lookup fs q = None /\ fs_lookup fs' q = Some (mkNode KDir now) /\
      exists r1 r2, q = done ++ r1 /\ rest = r1 ++ r2 /\ r1 <> [])) /\
  (forall r1 r2, rest = r1 ++ r2 -> r1 <> [] -> fs_lookup fs' (done ++ r1) <> None).
Proof.
  induction rest as [|c rest IH]; intros fs done now fs' H; cbn [create_dir_all_aux] in H.
  - injection H as <-. split; [left; reflexivity|].
    intros r1 r2 E Hr. destruct r1; [contradiction|discriminate].
  - destruct (fs_lookup fs (done ++ [c])) as [n|] eqn:Hl.
    + destruct (fs_stat fs (done ++ [c])) as [m|]; [|discriminate].
      destruct (m_is_dir m); [|discriminate].
      destruct (IH _ _ _ _ H) as [H1 H2]. split.
      * intros q. destruct (H1 q) as [E|(E1&E2&r1&r2&->&->&Hr)]; [left; exact E|].
        right. split; [exact E1|]. split; [exact E2|].
        exists (c :: r1), r2. rewrite <- app_assoc. split; [reflexivity|split; [reflexivity|discriminate]].
      * intros r1 r2 E Hr. destruct r1 as [|x r1]; [contradiction|]. injection E as <- E.
        destruct r1 as [|y r1'].
        -- destruct (H1 (done ++ [c])) as [E'|(E1&_)]; [rewrite E', Hl; discriminate|congruence].
        -- replace (done ++ c :: y :: r1') with ((done ++ [c]) ++ y :: r1')
             by (rewrite <- app_assoc; reflexivity).
           apply (H2 (y :: r1') r2); [exact E|discriminate].
    + destruct (IH _ _ _ _ H) as [H1 H2]. split.
      * intros q. destruct (H1 q) as [E|(E1&E2&r1&r2&->&->&Hr)].
        -- rewrite E, fs_lookup_put. destruct (path_eqb_spec q (done ++ [c])) as [->|Hq].
           ++ right. split; [exact Hl|]. split; [reflexivity|].
              exists [c], rest. split; [reflexivity|split; [reflexivity|discriminate]].
           ++ left; reflexivity.
        -- rewrite fs_lookup_put in E1.
           destruct (path_eqb_spec ((done ++ [c]) ++ r1) (done ++ [c])) as [_|_]; [discriminate|].
           right. split; [exact E1|]. split; [exact E2|]. exists (c :: r1), r2.
           rewrite <- app_assoc. split; [reflexivity|split; [reflexivity|discriminate]].
      * intros r1 r2 E Hr. destruct r1 as [|x r1]; [contradiction|]. injection E as <- E.
        destruct r1 as [|y r1'].
        -- destruct (H1 (done ++ [c])) as [E'|(E1&_)];
             [rewrite E', fs_lookup_put | rewrite fs_lookup_put in E1];
             (destruct (path_eqb_spec (done ++ [c]) (done ++ [c])); [discriminate|congruence]).
        -- replace (done ++ c :: y :: r1') with ((done ++ [c]) ++ y :: r1')
             by (rewrite <- app_assoc; reflexivity).
           apply (H2 (y :: r1') r2); [exact E|discriminate].
Qed.


Lemma glob_aux_slash pat : forall s, glob_aux (pat ++ ["/"%char]) s = true -> In "/"%char s.
Proof.
  induction pat as [|p pat IH]; intros s H.
  - destruct s as [|c s]; simpl in H; [discriminate|].
    apply andb_prop in H as [H _]. unfold glob_char in H.
    apply orb_prop in H as [H|H]; [discriminate|]. apply Ascii.eqb_eq in H. left; symmetry; exact H.
  - simpl in H. destruct (Ascii.eqb p "*").
    + revert H. induction s as [|c s IHs]; intros H; apply orb_prop in H as [H|H].
      * exact (IH _ H).
      * discriminate.
      * exact (IH _ H).
      * right. exact (IHs H).
    + destruct s as [|c s]; [discriminate|]. apply andb_prop in H as [_ H]. right. exact (IH _ H).
Qed.

Lemma strip_suffix_slash v : strip_suffix "/" (v +++ "/") = Some v.
Proof.
  unfold strip_suffix. rewrite rev_str_app_char. simpl. rewrite rev_str_involutive. reflexivity.
Qed.

(** X5: a hidden pattern ending in [/] hides directories whose name matches the pattern without the slash, and never hides a non-directory whose name has no [/] (apart from the dot-file rule). *)
Theorem X_dir_only_hidden_pattern v ph n :
  is_hidden [v +++ "/"] ph n true = (ph && starts_with "." n) || glob v n /\
  (~ In "/"%char (chars n) -> is_hidden [v +++ "/"] ph n false = ph && starts_with "." n).
Proof.
  unfold is_hidden. split.
  - destruct (ph && starts_with "." n); [reflexivity|]. simpl. rewrite strip_suffix_slash.
    apply orb_false_r.
  - intros Hn. destruct (ph && starts_with "." n); [reflexivity|]. simpl.
    unfold glob. rewrite chars_append. simpl.
    destruct (glob_aux (chars v ++ ["/"%char]) (chars n)) eqn:E; [|reflexivity].
    exfalso. apply Hn. exact (glob_aux_slash _ _ E).
Qed.

Lemma split_on_app_sep c x y :
  ~ In c (chars x) -> split_on c (x +++ String c y) = x :: split_on c y.
Proof.
  induction x as [|a x IH]; intros H; simpl.
  - rewrite Ascii.eqb_refl. reflexivity.
  - simpl in H. destruct (Ascii.eqb_spec a c) as [->|_]; [tauto|]. rewrite IH by tauto. reflexivity.
Qed.

Lemma split_on_join c l :
  l <> [] -> (forall x, In x l -> ~ In c (chars x)) ->
  split_on c (join_with (String c EmptyString) l) = l.
Proof.
  induction l as [|x l IH]; intros Hne H; [contradiction|].
  destruct l as [|y l].
  - simpl. apply split_on_no. apply H. left; reflexivity.
  - change (join_with (String c EmptyString) (x :: y :: l))
      with (x +++ String c EmptyString +++ join_with (String c EmptyString) (y :: l)).
    simpl (String c EmptyString +++ _).
    rewrite split_on_app_sep by (apply H; left; reflexivity).
    f_equal. apply IH; [discriminate|intros z Hz; apply H; right; exact Hz].
Qed.

(** X6: the base name of a path item whose name is a non-empty list of components without [/], joined with [/], is its last component. *)
Theorem X_base_name_last_component t rel m s :
  rel <> [] -> (forall x, In x rel -> ~ In "/"%char (chars x)) ->
  base_name (mkPathItem t (join_with "/" rel) m s) = last rel "".
Proof.
  intros Hne H. unfold base_name. cbn [name]. rewrite (split_on_join "/"%char rel Hne H). reflexivity.
Qed.

Lemma split_once_some c s x y :
  split_once c s = (x, Some y) -> s = x +++ String c y /\ ~ In c (chars x).
Proof.
  revert x. induction s as [|a s IH]; intros x H; simpl in H; [discriminate|].
  destruct (Ascii.eqb_spec a c) as [->|Hac].
  - injection H as <- <-. split; [reflexivity|simpl; tauto].
  - destruct (split_once c s) as [x' y'] eqn:E. injection H as <- ->.
    destruct (IH x' eq_refl) as [-> Hn]. split; [reflexivity|]. simpl. intros [H|H]; [congruence|tauto].
Qed.

Lemma rev_str_append a b : rev_str (a +++ b) = rev_str b +++ rev_str a.
Proof. unfold rev_str. rewrite chars_append, rev_app_distr. apply string_of_list_app. Qed.

Lemma file_name_not_dotdot p f : file_name p = Some f -> f <> "..".
Proof.
  unfold file_name. destruct (rev p) as [|x r]; [discriminate|].
  destruct (String.eqb_spec x ".."); [discriminate|]. intros H; injection H as <-. exact n.
Qed.

Lemma rev_str_empty s : rev_str s = "" -> s = "".
Proof. intros H. rewrite <- (rev_str_involutive s), H. reflexivity. Qed.

Lemma extension_spec p :
  extension p <> None <->
  exists stem e, stem <> "" /\ ~ In "."%char (chars e) /\ file_name p = Some (stem +++ "." +++ e).
Proof.
  unfold extension. split.
  - destruct (file_name p) as [f|] eqn:Hf; [|tauto].
    destruct (String.eqb f ".."); [tauto|].
    destruct (split_once "." (rev_str f)) as [after [before|]] eqn:Hs; [|tauto].
    destruct (String.eqb_spec before ""); [tauto|]. intros _.
    apply split_once_some in Hs as [Hs Hn].
    exists (rev_str before), (rev_str after). split; [intros E; apply rev_str_empty in E; contradiction|].
    split; [rewrite chars_rev_str; intros E; apply Hn, in_rev, E|].
    rewrite <- (rev_str_involutive f), Hs, rev_str_append, rev_str_cons. simpl.
    rewrite str_append_assoc. reflexivity.
  - intros (stem & e & Hst & He & Hf). rewrite Hf.
    rewrite (proj2 (String.eqb_neq _ _) (file_name_not_dotdot p _ Hf)).
    rewrite rev_str_append. change ("." +++ e) with (String "." EmptyString +++ e).
    rewrite rev_str_append. rewrite str_append_assoc. simpl (rev_str (String "." EmptyString) +++ _).
    rewrite split_once_app by (rewrite chars_rev_str; intros E; apply He, in_rev, E).
    destruct (String.eqb_spec (rev_str stem) ""); [apply rev_str_empty in e0; contradiction|].
    discriminate.
Qed.

(** X9: the single-page-app fallback answers 404 for a path whose file name has an extension (a non-empty stem, a dot, no later dot), and otherwise serves the root's [index.html]. *)
Theorem X_render_spa_by_extension gct fmt srv view p hdrs head_only :
  ((exists stem e, stem <> "" /\ ~ In "."%char (chars e) /\ file_name p = Some (stem +++ "." +++ e)) ->
   handle_render_spa gct fmt srv view p hdrs head_only = Some status_not_found) /\
  (~ (exists stem e, stem <> "" /\ ~ In "."%char (chars e) /\ file_name p = Some (stem +++ "." +++ e)) ->
   handle_render_spa gct fmt srv view p hdrs head_only =
     handle_send_file gct fmt view (root_path (args srv) ++ ["index.html"]) hdrs head_only).
Proof.
  split; intros H; apply extension_spec in H || rewrite <- extension_spec in H;
    unfold handle_render_spa.
  - destruct (extension p); [reflexivity|contradiction].
  - destruct (extension p); [exfalso; apply H; discriminate|reflexivity].
Qed.




(** X6, witness: The item d/x. *)
Lemma X_base_name_last_component_witness :
  base_name (mkPathItem File (join_with "/" ["d"; "x"]) 1000 (Some 1%Z)) = last ["d"; "x"] "".
Proof.
  refine (X_base_name_last_component File ["d"; "x"] 1000 (Some 1%Z) _ _).
  - discriminate.
  - intros x Hx. simpl in Hx. destruct Hx as [<-|[<-|[]]]; simpl; intuition discriminate.
Defined.

Ltac destruct_innermost :=
  repeat match goal with |- context [match ?x with _ => _ end] =>
    lazymatch x with context [match _ with _ => _ end] => fail | _ => destruct x end end;
  cbv beta iota.

(** X10: the dispatcher selects an upload, MKCOL or COPY only when uploads are allowed, a DELETE only when deletion is allowed, and a MOVE only when both are. *)
Theorem X_write_actions_need_permission srv view req :
  match handle srv view req with
  | ActUpload _ | ActMkcol _ | ActCopy _ => allow_upload (args srv) = true
  | ActMove _ => allow_upload (args srv) = true /\ allow_delete (args srv) = true
  | ActDelete _ _ => allow_delete (args srv) = true
  | _ => True
  end.
Proof.
  destruct (allow_upload (args srv)) eqn:U, (allow_delete (args srv)) eqn:D;
    [destruct (handle srv view req); auto| | |];
  unfold handle; cbv zeta; rewrite ?U, ?D; cbn [negb orb andb]; destruct_innermost; auto.
Qed.

(** X11: with symbolic links allowed and the path prefix [/], a GET whose path decodes (after trimming slashes) to an absolute path sends that absolute path's file, outside the served root. *)
Theorem X_absolute_decoded_path_escapes_root srv view req t user ap m :
  req_method req = "GET" ->
  handle_assets srv (req_path req) = None ->
  path_prefix (args srv) = "/" ->
  decode_uri (trim_matches "/" (req_path req)) = Some ("/" +++ t) ->
  auth_guard (args srv) ("/" +++ t) "GET" (h_authorization (req_headers req)) = (user, Some ap) ->
  path_is_file (args srv) = false ->
  allow_symlink (args srv) = true ->
  fs_metadata view (components ("/" +++ t)) = Some m ->
  m_is_dir m = false -> m_is_file m = true ->
  query_contains (req_query req) "edit" = false ->
  handle srv view req = ActSendFile (components ("/" +++ t)) false.
Proof.
  intros Hg Ha Hp Hd Hau Hf Hs Hm Hdir Hfile He.
  unfold handle. cbv zeta. rewrite Hg. cbn [String.eqb Ascii.eqb Bool.eqb].
  rewrite Ha. unfold resolve_path. rewrite Hd, Hp. cbn [String.eqb Ascii.eqb Bool.eqb].
  assert (J : join_path srv ("/" +++ t) = components ("/" +++ t)) by reflexivity.
  rewrite Hau, J. destruct user; cbn [String.eqb Ascii.eqb Bool.eqb];
  rewrite Hf, Hm; cbv beta iota; rewrite Hs, Hdir, Hfile, He; reflexivity.
Qed.

Section SortGen.
Context {A : Type}.

Lemma insert_by_perm_gen (cmp : A -> A -> comparison) x l :
  Permutation (x :: l) (insert_by cmp x l).
Proof.
  induction l as [|y l IH]; simpl; [reflexivity|].
  destruct (cmp x y); try reflexivity.
  eapply perm_trans; [apply perm_swap|]. constructor. exact IH.
Qed.

Lemma sort_by_perm_gen (cmp : A -> A -> comparison) l : Permutation l (sort_by cmp l).
Proof.
  induction l as [|x l IH]; simpl; [reflexivity|].
  eapply perm_trans; [constructor; exact IH|]. apply insert_by_perm_gen.
Qed.

Variable key : A -> Z.

Lemma insert_by_sorted_key x l :
  Sorted (fun a b => (key a <= key b)%Z) l ->
  Sorted (fun a b => (key a <= key b)%Z) (insert_by (fun a b => Z.compare (key a) (key b)) x l).
Proof.
  induction 1 as [|y l Hs IH Hhd]; simpl.
  - constructor; constructor.
  - destruct (Z.compare_spec (key x) (key y)) as [E|E|E].
    + constructor; [constructor; assumption|constructor; lia].
    + constructor; [constructor; assumption|constructor; lia].
    + constructor; [exact IH|].
      destruct l as [|z l]; simpl; [constructor; lia|].
      inversion Hhd; subst.
      destruct (Z.compare (key x) (key z)); constructor; lia.
Qed.

Lemma sort_by_sorted_key l :
  Sorted (fun a b => (key a <= key b)%Z) (sort_by (fun a b => Z.compare (key a) (key b)) l).
Proof. induction l; simpl; [constructor|]. apply insert_by_sorted_key; assumption. Qed.
End SortGen.

Lemma send_index_paths_perm compare_str q paths :
  Permutation paths
    (match query_get q "sort" with
     | Some sort =>
         let paths :=
           if String.eqb sort "name" then
             sort_by (fun v1 v2 => compare_str (to_lowercase (name v1)) (to_lowercase (name v2))) paths
           else if String.eqb sort "mtime" then
             sort_by (fun v1 v2 => Z.compare (mtime v1) (mtime v2)) paths
           else if String.eqb sort "size" then
             sort_by (fun v1 v2 => Z.compare (match size v1 with Some s => s | None => 0%Z end)
                                             (match size v2 with Some s => s | None => 0%Z end)) paths
           else paths in
         if match query_get q "order" with Some v => String.eqb v "desc" | None => false end
         then rev paths else paths
     | None => sort_by pathitem_cmp paths
     end).
Proof.
  destruct (query_get q "sort") as [sort|]; [|apply sort_by_perm].
  cbv zeta.
  assert (Hp : Permutation paths
    (if String.eqb sort "name" then
       sort_by (fun v1 v2 => compare_str (to_lowercase (name v1)) (to_lowercase (name v2))) paths
     else if String.eqb sort "mtime" then
       sort_by (fun v1 v2 => Z.compare (mtime v1) (mtime v2)) paths
     else if String.eqb sort "size" then
       sort_by (fun v1 v2 => Z.compare (match size v1 with Some s => s | None => 0%Z end)
                                       (match size v2 with Some s => s | None => 0%Z end)) paths
     else paths))
    by (destruct (String.eqb sort "name"); [apply sort_by_perm_gen|];
        destruct (String.eqb sort "mtime"); [apply sort_by_perm_gen|];
        destruct (String.eqb sort "size"); [apply sort_by_perm_gen|reflexivity]).
  destruct (match query_get q "order" with Some v => String.eqb v "desc" | None => false end);
    [|exact Hp].
  eapply perm_trans; [exact Hp|apply Permutation_rev].
Qed.

(** X12: a listing response carries a permutation of the given items, as an index page, as the simple text list, or with no body for HEAD. *)
Theorem X_send_index_only_reorders compare_str srv p paths exist q head_only user r :
  send_index compare_str srv p paths exist q head_only user = Some r ->
  exists items, Permutation paths items /\
    (r_body r = BIndex items \/ r_body r = BText (lines_of items) \/
     (head_only = true /\ r_body r = BEmpty)).
Proof.
  unfold send_index.
  match goal with |- context [lines_of ?e] =>
    assert (Hp : Permutation paths e) by apply send_index_paths_perm;
    set (ps := e) in *; clearbody ps end.
  intros H. exists ps. split; [exact Hp|].
  destruct (query_contains q "simple").
  - injection H as <-. right; left; reflexivity.
  - destruct (path_strip_prefix p (root_path (args srv))); [|discriminate].
    destruct head_only; injection H as <-; [right; right; split; reflexivity|left; reflexivity].
Qed.

(** X13: for HEAD, the listing response is the GET response without its body, except in the simple text mode, where the body is sent as for GET. *)
Theorem X_send_index_head_drops_body_unless_simple compare_str srv p paths exist q user :
  send_index compare_str srv p paths exist q true user =
  if query_contains q "simple" then send_index compare_str srv p paths exist q false user
  else option_map (set_body BEmpty) (send_index compare_str srv p paths exist q false user).
Proof.
  unfold send_index. cbv zeta.
  destruct (query_contains q "simple"); [reflexivity|].
  destruct (path_strip_prefix p (root_path (args srv))); reflexivity.
Qed.


(** X14: with sort=mtime or sort=size the listed items, on the index page as in the simple text list, are in ascending order of that key (a missing size counts as 0), read back to front when order=desc. *)
Theorem X_send_index_sorts_by_mtime_and_size compare_str srv p paths exist q head_only user r :
  send_index compare_str srv p paths exist q head_only user = Some r ->
  exists items, Permutation paths items /\
    (r_body r = BIndex items \/ r_body r = BText (lines_of items) \/
     (head_only = true /\ r_body r = BEmpty)) /\
    (query_get q "sort" = Some "mtime" ->
     Sorted (fun a b => (mtime a <= mtime b)%Z) (if index_order_desc q then rev items else items)) /\
    (query_get q "sort" = Some "size" ->
     Sorted (fun a b => ((match size a with Some s => s | None => 0 end) <=
                         (match size b with Some s => s | None => 0 end))%Z)
            (if index_order_desc q then rev items else items)).
Proof.
  unfold send_index.
  match goal with |- context [lines_of ?e] =>
    assert (Hp : Permutation paths e) by apply send_index_paths_perm;
    set (ps := e) in * end.
  intros H. exists ps. split; [exact Hp|]. split.
  - destruct (query_contains q "simple").
    + injection H as <-. right; left; reflexivity.
    + destruct (path_strip_prefix p (root_path (args srv))); [|discriminate].
      destruct head_only; injection H as <-; [right; right; split; reflexivity|left; reflexivity].
  - clear H Hp. unfold ps, index_order_desc. split; intros Hs; rewrite Hs;
      cbn [String.eqb Ascii.eqb Bool.eqb];
      destruct (match query_get q "order" with Some v => String.eqb v "desc" | None => false end);
      rewrite ?rev_involutive;
      first [apply (sort_by_sorted_key mtime)
            | apply (sort_by_sorted_key (fun a => match size a with Some s => s | None => 0%Z end))].
Qed.

(** X11, witness: GET of /%2Fout%2Fsecret sends /out/secret. *)
Lemma X_absolute_decoded_path_escapes_root_witness :
  let srv := ex_server ["srv"] false true true true [] allow_all in
  handle srv ex_view (mkRequest "GET" "/%2Fout%2Fsecret" [] no_headers "")
  = ActSendFile ["out"; "secret"] false.
Proof.
  intros srv.
  refine (X_absolute_decoded_path_escapes_root srv ex_view
            (mkRequest "GET" "/%2Fout%2Fsecret" [] no_headers "") "out/secret" None
            (access_paths_new ReadWrite) (mkMeta false true false 1 (Some 1000%Z))
            _ _ _ _ _ _ _ _ _ _ _).
  all: first [vm_compute; reflexivity | discriminate | vm_compute; discriminate | lia].
Defined.

(** X12, witness: Three items in the default order. *)
Lemma X_send_index_only_reorders_witness :
  let ps := [mkPathItem File "a" 5 (Some 3%Z); mkPathItem File "b" 1 (Some 7%Z);
             mkPathItem Dir "c" 9 None] in
  let r := set_body (BIndex [mkPathItem Dir "c" 9 None; mkPathItem File "a" 5 (Some 3%Z);
                             mkPathItem File "b" 1 (Some 7%Z)])
             (insert_header "content-type" "text/html; charset=utf-8" default_response) in
  exists items, Permutation ps items /\
    (r_body r = BIndex items \/ r_body r = BText (lines_of items) \/
     (false = true /\ r_body r = BEmpty)).
Proof.
  intros ps r.
  refine (X_send_index_only_reorders ex_compare_str (ex_server ["srv"] false true true false [] allow_all)
            ["srv"] ps true [] false None r _).
  vm_compute; reflexivity.
Defined.

(** X14, witness: the simple text list sorted by size, largest first. *)
Lemma X_send_index_sorts_by_mtime_and_size_witness :
  let srv := ex_server ["srv"] false true true false [] allow_all in
  let q := [("sort", "size"); ("order", "desc"); ("simple", "")] in
  let ps := [mkPathItem File "a" 5 (Some 3%Z); mkPathItem File "b" 1 (Some 7%Z);
             mkPathItem Dir "c" 9 None] in
  let r := match send_index ex_compare_str srv ["srv"] ps true q false None with
           | Some r => r | None => default_response end in
  exists items, Permutation ps items /\
    (r_body r = BIndex items \/ r_body r = BText (lines_of items) \/
     (false = true /\ r_body r = BEmpty)) /\
    (query_get q "sort" = Some "mtime" ->
     Sorted (fun a b => (mtime a <= mtime b)%Z) (if index_order_desc q then rev items else items)) /\
    (query_get q "sort" = Some "size" ->
     Sorted (fun a b => ((match size a with Some s => s | None => 0 end) <=
                         (match size b with Some s => s | None => 0 end))%Z)
            (if index_order_desc q then rev items else items)).
Proof.
  intros srv q ps r.
  refine (X_send_index_sorts_by_mtime_and_size ex_compare_str srv ["srv"] ps true q false None r _).
  vm_compute. reflexivity.
Defined.











(** X17: for HEAD, sending a file gives the same response as GET without its body, in every case (200, 206, 304, 416 and errors). *)
Theorem X_send_file_head_is_get_without_body gct fmt view p hdrs :
  handle_send_file gct fmt view p hdrs true =
  option_map (set_body BEmpty) (handle_send_file gct fmt view p hdrs false).
Proof.
  unfold handle_send_file, set_content_disposition. destruct_innermost; reflexivity.
Qed.

Lemma if_none_same {A} (b : bool) : (if b then @None A else None) = None.
Proof. destruct b; reflexivity. Qed.

Lemma send_file_range_none gct fmt view p hdrs head_only :
  parse_range hdrs = None ->
  handle_send_file gct fmt view p hdrs head_only =
  handle_send_file gct fmt view p
    (mkHeaders (h_authorization hdrs) None (h_if_range hdrs) (h_if_none_match hdrs)
       (h_if_modified_since hdrs) (h_depth hdrs) (h_destination hdrs)) head_only.
Proof.
  intros H. unfold handle_send_file.
  destruct (fs_read view p), (fs_metadata view p); try reflexivity.
  destruct (extract_cache_headers m) as [[etag lm]|]; cbv beta iota zeta;
    rewrite H; rewrite ?if_none_same; reflexivity.
Qed.

Lemma parse_digits_comma acc s : In ","%char (chars s) -> parse_digits acc s = None.
Proof.
  revert acc. induction s as [|c s IH]; intros acc H; simpl in H; [contradiction|].
  simpl. destruct H as [->|H]; [reflexivity|].
  destruct (is_digit c); [apply IH, H|reflexivity].
Qed.

Lemma parse_uint_comma bits s : In ","%char (chars s) -> parse_uint bits s = None.
Proof.
  intros H. unfold parse_uint.
  destruct s as [|c r]; [reflexivity|].
  destruct (Ascii.eqb_spec c "+") as [->|Hc].
  - simpl in H. destruct H as [H|H]; [discriminate|].
    destruct r as [|c' r']; [reflexivity|]. rewrite parse_digits_comma by exact H. reflexivity.
  - rewrite parse_digits_comma by exact H. reflexivity.
Qed.

Lemma split_once_bytes x : split_once "=" ("bytes=" +++ x) = ("bytes", Some x).
Proof. reflexivity. Qed.

Lemma split_once_dash a b : ~ In "-"%char (chars a) -> split_once "-" (a +++ "-" +++ b) = (a, Some b).
Proof. exact (split_once_app "-" a b). Qed.

(** X18: a suffix byte range ([bytes=-N]) or a multi-range request is ignored: the file is sent exactly as without a Range header. *)
Theorem X_suffix_and_multi_ranges_ignored gct fmt view p hdrs head_only :
  ((exists s, h_range hdrs = Some ("bytes=-" +++ s)) \/
   (exists a b, h_range hdrs = Some ("bytes=" +++ a +++ "-" +++ b) /\
      ~ In "-"%char (chars a) /\ In ","%char (chars b))) ->
  handle_send_file gct fmt view p hdrs head_only =
  handle_send_file gct fmt view p
    (mkHeaders (h_authorization hdrs) None (h_if_range hdrs) (h_if_none_match hdrs)
       (h_if_modified_since hdrs) (h_depth hdrs) (h_destination hdrs)) head_only.
Proof.
  intros H. apply send_file_range_none. unfold parse_range.
  destruct H as [(s & Hs)|(a & b & Hs & Ha & Hb)]; rewrite Hs;
    destruct (header_to_str_ok _); try reflexivity; cbn [negb].
  rewrite split_once_bytes. cbn [String.eqb Ascii.eqb Bool.eqb].
  rewrite (split_once_dash a b Ha).
  destruct (parse_uint 64 a); [|reflexivity].
  rewrite parse_uint_comma by exact Hb. destruct (String.eqb_spec b "") as [->|_]; [contradiction|reflexivity].
Qed.

Lemma resolve_mono fs fs' :
  (forall q n, fs_lookup fs q = Some n -> fs_lookup fs' q = Some n) ->
  forall f done rest c, resolve f fs done rest = Some c -> resolve f fs' done rest = Some c.
Proof.
  intros Hm. induction f as [|f IH]; intros done rest c H; [discriminate|].
  simpl in H |- *. destruct rest as [|x rest]; [exact H|].
  destruct (String.eqb x ".."); [apply IH, H|].
  destruct (fs_lookup fs (done ++ [x])) as [n|] eqn:E; [|discriminate].
  rewrite (Hm _ _ E). destruct (n_kind n); [apply IH, H|exact H|apply IH, H].
Qed.

Lemma fs_canon_mono fs fs' p c :
  (forall q n, fs_lookup fs q = Some n -> fs_lookup fs' q = Some n) ->
  fs_canon fs p = Some c -> fs_canon fs' p = Some c.
Proof. intros Hk'. exact (resolve_mono fs fs' Hk' resolve_fuel [] p c). Qed.

Lemma ensure_path_parent_keeps fs d now fs' :
  ensure_path_parent fs d now = Some fs' ->
  forall q n, fs_lookup fs q = Some n -> fs_lookup fs' q = Some n.
Proof.
  unfold ensure_path_parent, create_dir_all. intros H q n Hq.
  destruct (parent d) as [par|]; [|injection H as <-; exact Hq].
  destruct (fs_lstat fs par); [injection H as <-; exact Hq|].
  destruct (proj1 (create_dir_all_aux_spec par fs [] now fs' H) q) as [E|(E&_)]; congruence.
Qed.
Lemma fs_stat_dir fs p m2 :
  fs_stat fs p = Some m2 -> m_is_dir m2 = true ->
  exists c n, fs_canon fs p = Some c /\ node_at fs c = Some n /\ n_kind n = KDir.
Proof.
  unfold fs_stat. destruct (fs_canon fs p) as [c|] eqn:Hc; [|discriminate].
  destruct (node_at fs c) as [n|] eqn:Hn; [|discriminate].
  intros H; injection H as <-. unfold meta_of_node.
  destruct (n_kind n) eqn:Ek; [|discriminate|discriminate].
  intros _. exists c, n. auto.
Qed.

Lemma copy_cat_none fs fs' p dest now c n :
  ensure_path_parent fs dest now = Some fs' ->
  fs_canon fs p = Some c -> node_at fs c = Some n -> n_kind n = KDir ->
  fs_copy fs' p dest now = None.
Proof.
  intros He Hc Hn Hk. pose proof (ensure_path_parent_keeps _ _ _ _ He) as Hk'.
  pose proof (fs_canon_mono fs fs' p c Hk' Hc) as Hc'.
  assert (Hn' : node_at fs' c = Some n)
    by (destruct c; [exact Hn|apply Hk'; exact Hn]).
  unfold fs_copy, fs_cat. rewrite Hc', Hn', Hk. reflexivity.
Qed.

(** X19: COPY of a symbolic link to a directory fails with an error (500 in [call]); the destination's missing parent directories it created are kept. *)
Theorem X_copy_of_link_to_dir_fails srv fs p req now dest m m2 :
  extract_dest srv req = inr dest ->
  fs_lstat fs p = Some m -> m_is_dir m = false ->
  fs_stat fs p = Some m2 -> m_is_dir m2 = true ->
  snd (handle_copy srv fs p req now) = None /\
  (forall fs', ensure_path_parent fs dest now = Some fs' -> fst (handle_copy srv fs p req now) = fs').
Proof.
  intros Hd Hl Hld Hs Hsd.
  destruct (fs_stat_dir fs p m2 Hs Hsd) as (c & n & Hc & Hn & Hk).
  unfold handle_copy. rewrite Hd, Hl, Hld.
  destruct (ensure_path_parent fs dest now) as [fs'|] eqn:He.
  - rewrite (copy_cat_none fs fs' p dest now c n He Hc Hn Hk).
    split; [reflexivity|]. intros fs'' E; injection E as <-; reflexivity.
  - split; [reflexivity|discriminate].
Qed.

Lemma add_pathitem_in srv view acc base e it :
  In it (add_pathitem srv view acc base e) ->
  In it acc \/
  (to_pathitem srv view e base = Some (Some it) /\
   is_hidden (hidden (args srv)) (posix_hidden (args srv)) (get_file_name e) (pathitem_is_dir it) = false).
Proof.
  unfold add_pathitem. destruct (to_pathitem srv view e base) as [[item|]|]; auto.
  destruct (is_hidden _ _ _ (pathitem_is_dir item)) eqn:Eh; [auto|].
  intros H. apply in_app_or in H as [H|[<-|[]]]; auto.
Qed.

Lemma list_dir_fold_in srv view base p names : forall acc it,
  In it (fold_left (fun acc name => add_pathitem srv view acc base (p ++ [name])) names acc) ->
  In it acc \/ exists n, In n names /\ to_pathitem srv view (p ++ [n]) base = Some (Some it) /\
    is_hidden (hidden (args srv)) (posix_hidden (args srv)) (get_file_name (p ++ [n]))
      (pathitem_is_dir it) = false.
Proof.
  induction names as [|n names IH]; intros acc it H; simpl in H; [left; exact H|].
  destruct (IH _ _ H) as [H1|(n' & Hn & H2)].
  - destruct (add_pathitem_in _ _ _ _ _ _ H1) as [H3|H3]; [left; exact H3|].
    right. exists n. simpl; tauto.
  - right. exists n'. simpl; tauto.
Qed.

Lemma to_pathitem_child_name srv view p n it :
  to_pathitem srv view (p ++ [n]) p = Some (Some it) -> name it = n.
Proof.
  unfold to_pathitem. rewrite path_strip_prefix_app.
  destruct (fs_metadata view (p ++ [n])), (fs_symlink_metadata view (p ++ [n])); try discriminate.
  destruct (_ && _); [discriminate|]. destruct (m_mtime m); [|discriminate].
  intros H; injection H as <-. reflexivity.
Qed.

Lemma get_file_name_child p n : n <> ".." -> get_file_name (p ++ [n]) = n.
Proof.
  intros H. unfold get_file_name, file_name. rewrite rev_app_distr. simpl.
  rewrite (proj2 (String.eqb_neq _ _) H). reflexivity.
Qed.

(** X20: every item of a directory listing (without index-only access) is named after an entry of the directory and is not hidden for its type. *)
Theorem X_list_dir_items_not_hidden srv view p ap names items it :
  indexonly (ap_perm ap) = false ->
  fs_read_dir view p = Some names -> ~ In ".." names ->
  list_dir srv view p p ap = Some items -> In it items ->
  In (name it) names /\
  is_hidden (hidden (args srv)) (posix_hidden (args srv)) (name it) (pathitem_is_dir it) = false.
Proof.
  intros Hi Hr Hdd Hl Hin. unfold list_dir in Hl. rewrite Hi, Hr in Hl. injection Hl as <-.
  destruct (list_dir_fold_in _ _ _ _ _ _ _ Hin) as [[]|(n & Hn & Ht & Hh)].
  rewrite (to_pathitem_child_name _ _ _ _ _ Ht). split; [exact Hn|].
  rewrite <- (get_file_name_child p n) by (intros E; subst; contradiction). exact Hh.
Qed.

Lemma to_pathitem_link_contained srv view e base it :
  to_pathitem srv view e base = Some (Some it) -> allow_symlink (args srv) = false ->
  exists meta2, fs_symlink_metadata view e = Some meta2 /\
    (m_is_symlink meta2 = true -> is_root_contained srv view e = true).
Proof.
  unfold to_pathitem. intros H Ha.
  destruct (fs_metadata view e) as [meta|], (fs_symlink_metadata view e) as [meta2|];
    try discriminate.
  exists meta2. split; [reflexivity|]. intros Hs. rewrite Ha, Hs in H.
  destruct (is_root_contained srv view e); [reflexivity|discriminate].
Qed.

(** X21: with symbolic links not allowed, every item of a directory listing (without index-only access) that is a symbolic link resolves inside the served root. *)
Theorem X_list_dir_omits_escaping_links srv view p ap names items it :
  indexonly (ap_perm ap) = false -> allow_symlink (args srv) = false ->
  fs_read_dir view p = Some names ->
  list_dir srv view p p ap = Some items -> In it items ->
  exists n meta2, In n names /\ name it = n /\
    fs_symlink_metadata view (p ++ [n]) = Some meta2 /\
    (m_is_symlink meta2 = true -> is_root_contained srv view (p ++ [n]) = true).
Proof.
  intros Hi Ha Hr Hl Hin. unfold list_dir in Hl. rewrite Hi, Hr in Hl. injection Hl as <-.
  destruct (list_dir_fold_in _ _ _ _ _ _ _ Hin) as [[]|(n & Hn & Ht & _)].
  destruct (to_pathitem_link_contained _ _ _ _ _ Ht Ha) as (meta2 & Hm & Hc).
  exists n, meta2. split; [exact Hn|]. split; [exact (to_pathitem_child_name _ _ _ _ _ Ht)|].
  split; assumption.
Qed.

(** X21, witness: Listing /srv: the link foo stays inside the root. *)
Lemma X_list_dir_omits_escaping_links_witness :
  let srv := ex_server ["srv"] false true true false [] allow_all in
  exists n meta2, In n ["a.txt"; "d"; "real"; "foo"; "esc"] /\
    name (mkPathItem SymlinkDir "foo" 1000 None) = n /\
    fs_symlink_metadata ex_view (["srv"] ++ [n]) = Some meta2 /\
    (m_is_symlink meta2 = true -> is_root_contained srv ex_view (["srv"] ++ [n]) = true).
Proof.
  intros srv.
  refine (X_list_dir_omits_escaping_links srv ex_view ["srv"] (access_paths_new ReadWrite)
            ["a.txt"; "d"; "real"; "foo"; "esc"]
            [mkPathItem File "a.txt" 1700000000000 (Some 10%Z); mkPathItem Dir "d" 1000 None;
             mkPathItem Dir "real" 1000 None; mkPathItem SymlinkDir "foo" 1000 None]
            (mkPathItem SymlinkDir "foo" 1000 None) _ _ _ _ _).
  1-4: vm_compute; reflexivity.
  simpl. tauto.
Defined.

(** X18, witness: The suffix range bytes=-5 on /srv/a.txt. *)
Lemma X_suffix_and_multi_ranges_ignored_witness :
  let hdrs := range_hdrs "bytes=-5" in
  handle_send_file ex_content_type ex_http_date ex_view ["srv"; "a.txt"] hdrs false =
  handle_send_file ex_content_type ex_http_date ex_view ["srv"; "a.txt"]
    (mkHeaders (h_authorization hdrs) None (h_if_range hdrs) (h_if_none_match hdrs)
       (h_if_modified_since hdrs) (h_depth hdrs) (h_destination hdrs)) false.
Proof.
  intros hdrs.
  refine (X_suffix_and_multi_ranges_ignored ex_content_type ex_http_date ex_view ["srv"; "a.txt"]
            hdrs false (or_introl (ex_intro _ "5" _))).
  reflexivity.
Defined.

(** X19, witness: COPY of the link /srv/foo to /new/foo2. *)
Lemma X_copy_of_link_to_dir_fails_witness :
  let srv := ex_server ["srv"] false true true false [] allow_all in
  let req := mkRequest "COPY" "/foo" [] (dest_hdrs "/new/foo2") "" in
  snd (handle_copy srv ex_fs ["srv"; "foo"] req 5) = None /\
  (forall fs', ensure_path_parent ex_fs ["srv"; "new"; "foo2"] 5 = Some fs' ->
     fst (handle_copy srv ex_fs ["srv"; "foo"] req 5) = fs').
Proof.
  intros srv req.
  refine (X_copy_of_link_to_dir_fails srv ex_fs ["srv"; "foo"] req 5 ["srv"; "new"; "foo2"]
            (mkMeta false false true 8 (Some 1000%Z)) (mkMeta true false false 4096 (Some 1000%Z))
            _ _ _ _ _).
  all: vm_compute; reflexivity.
Defined.

(** X20, witness: Listing /srv with the pattern d/ hidden: real is listed. *)
Lemma X_list_dir_items_not_hidden_witness :
  let srv := ex_server ["srv"] false true true false ["d/"] allow_all in
  let it := mkPathItem Dir "real" 1000 None in
  In (name it) ["a.txt"; "d"; "real"; "foo"; "esc"] /\
  is_hidden (hidden (args srv)) (posix_hidden (args srv)) (name it) (pathitem_is_dir it) = false.
Proof.
  intros srv it.
  refine (X_list_dir_items_not_hidden srv ex_view ["srv"] (access_paths_new ReadWrite)
            ["a.txt"; "d"; "real"; "foo"; "esc"]
            [mkPathItem File "a.txt" 1700000000000 (Some 10%Z); it;
             mkPathItem SymlinkDir "foo" 1000 None] it _ _ _ _ _).
  - vm_compute; reflexivity.
  - vm_compute; reflexivity.
  - simpl. intuition discriminate.
  - vm_compute; reflexivity.
  - simpl. tauto.
Defined.
